(** * MicroScan: the analysis client and the upload surface

    A shallow embedding of [src/services/geminiService.ts], [src/types.ts]
    and the event handlers of the [App] component.

    - JavaScript values that cross the wire are [JsonValue]s.
    - The remote model and the browser are outside the repository: the
      program talks to them through one effect, [generateContent], and
      through the host functions [JSON_parse] and [readAsDataURL].
    - Asynchronous code is a small interaction monad [Prog]: a program
      either returns, throws, asks the remote model, or updates React
      state. Running a program against an oracle for the remote model
      yields an outcome, the final state and the log of calls made. *)

From Stdlib Require Import String Ascii List Bool Arith ZArith QArith Lia.
From Stdlib Require Import Permutation.
From Stdlib Require DecimalString.
Import ListNotations.
Set Warnings "-register-all".
Local Close Scope Q_scope.
Local Close Scope Z_scope.
Local Open Scope string_scope.
Local Open Scope list_scope.
Local Open Scope nat_scope.

(** ** JavaScript data *)

Module Js.

(** The value space of [JSON.parse]. Numbers are kept exact. Objects keep
    their keys in insertion order. *)
Inductive JsonValue : Type :=
| JNull
| JBool (b : bool)
| JNumber (q : Q)
| JString (s : string)
| JArray (items : list JsonValue)
| JObject (fields : list (string * JsonValue)).

(** What a [catch (err: any)] clause sees: [err.message] may be missing. *)
Record JsError : Type := mkError { message : option string }.

(** Property lookup [o.k] on an object's own fields. *)
Fixpoint lookup (k : string) (fields : list (string * JsonValue)) : option JsonValue :=
  match fields with
  | [] => None
  | (k', v) :: rest => if String.eqb k k' then Some v else lookup k rest
  end.

(** [s.split(sep)] for a one-character separator: the pieces between
    consecutive separators, in order; never the empty array. *)
Fixpoint split (sep : ascii) (s : string) : list string :=
  match s with
  | EmptyString => [EmptyString]
  | String c rest =>
      if Ascii.eqb c sep then EmptyString :: split sep rest
      else match split sep rest with
           | [] => [String c EmptyString]
           | piece :: pieces => String c piece :: pieces
           end
  end.

(** [a[i]]: [None] stands for [undefined]. *)
Definition index {A : Type} (a : list A) (i : nat) : option A := nth_error a i.

(** [x || d] where [x : string | undefined]: the empty string and
    [undefined] are falsy. *)
Definition or_default (x : option string) (d : string) : string :=
  match x with
  | Some EmptyString => d
  | Some s => s
  | None => d
  end.

(** Does character [c] occur in [s]? *)
Fixpoint occurs (c : ascii) (s : string) : bool :=
  match s with
  | EmptyString => false
  | String c' rest => Ascii.eqb c' c || occurs c rest
  end.

(** The host's [JSON.parse]: a value, or a thrown [SyntaxError]. *)
Class JsonHost : Type := { JSON_parse : string -> JsonValue + JsError }.

End Js.
Import Js.

(** ** The SDK's schema language ([Type] and [Schema] of @google/genai) *)

Module GenAI.

(** A schema node. [required] lists the property names a conforming
    object must carry; a node written without [required] has none. *)
Inductive Schema : Type :=
| STRING
| NUMBER
| ARRAY (items : Schema)
| OBJECT (properties : list (string * Schema)) (required : list string).

Record InlineData : Type := mkInline { mimeType : string; data : option string }.

Inductive Part : Type :=
| inlineData (d : InlineData)
| text (t : string).

Record Config : Type := mkConfig {
  systemInstruction : string;
  responseMimeType : string;
  responseSchema : Schema
}.

(** The argument of [ai.models.generateContent]. *)
Record Request : Type := mkRequest {
  model : string;
  parts : list Part;
  config : Config
}.

(** The reply: [response.text] is [string | undefined]. *)
Record Response : Type := mkResponse { response_text : option string }.

(** One call on the wire: the client's API key and the request. *)
Record Call : Type := mkCall { apiKey : string; request : Request }.

(** A value conforms to a schema when it has the node's type, every
    required property is present, and every declared property that is
    present conforms in turn. *)
Fixpoint conforms (s : Schema) (v : JsonValue) {struct s} : bool :=
  match s, v with
  | STRING, JString _ => true
  | NUMBER, JNumber _ => true
  | ARRAY it, JArray vs => forallb (conforms it) vs
  | OBJECT props req, JObject fields =>
      forallb (fun k => match lookup k fields with Some _ => true | None => false end) req
      && (fix each (ps : list (string * Schema)) : bool :=
            match ps with
            | [] => true
            | (k, sk) :: ps' =>
                match lookup k fields with
                | Some vk => conforms sk vk
                | None => true
                end && each ps'
            end) props
  | _, _ => false
  end.

(** The node reached by following property names (through array items). *)
Fixpoint schema_lookup (k : string) (ps : list (string * Schema)) : option Schema :=
  match ps with
  | [] => None
  | (k', s) :: rest => if String.eqb k k' then Some s else schema_lookup k rest
  end.

Fixpoint element (s : Schema) : Schema :=
  match s with
  | ARRAY it => element it
  | _ => s
  end.

Fixpoint at_path (path : list string) (s : Schema) : option Schema :=
  match path with
  | [] => Some (element s)
  | k :: path' =>
      match element s with
      | OBJECT props _ =>
          match schema_lookup k props with
          | Some sk => at_path path' sk
          | None => None
          end
      | _ => None
      end
  end.

Definition required_at (path : list string) (s : Schema) : option (list string) :=
  match at_path path s with
  | Some (OBJECT _ req) => Some req
  | _ => None
  end.

End GenAI.
Import GenAI.

(** ** The declared result type ([src/types.ts]) *)

Module Types.

(** The fragment of TypeScript's type language that [types.ts] uses. A
    member is optional when it is declared with [?]. *)
Inductive TsType : Type :=
| TString
| TNumber
| TLiterals (alternatives : list string)
| TArray (elem : TsType)
| TInterface (members : list (string * (bool * TsType))).

(** A mandatory member [k : t]. *)
Definition member (k : string) (t : TsType) : string * (bool * TsType) := (k, (false, t)).

Definition ParticleClassification : TsType :=
  TInterface
    [ member "type" TString;
      member "count" TNumber;
      member "colors" (TArray TString);
      member "sizeRange" TString;
      member "percentage" TNumber ].

Definition AnalysisResult : TsType :=
  TInterface
    [ member "reportId" TString;
      member "analysisDate" TString;
      member "detection"
        (TInterface
           [ member "totalCount" TNumber;
             member "confidence" (TLiterals ["High"; "Medium"; "Low"]);
             member "reasoning" TString ]);
      member "classification" (TArray ParticleClassification);
      member "severity"
        (TInterface
           [ member "particlesPerLiter" TNumber;
             member "score" TNumber;
             member "level" TString;
             member "calculation" TString ]);
      member "sources"
        (TArray
           (TInterface
              [ member "source" TString;
                member "confidence" TNumber;
                member "reasoning" TString ]));
      member "healthRisk"
        (TInterface
           [ member "marineRisk" TString;
             member "humanRiskLevel"
               (TLiterals ["NEGLIGIBLE"; "LOW"; "MODERATE"; "HIGH"; "CRITICAL"]);
             member "humanRiskSummary" TString;
             member "highestRiskTypes" (TArray TString);
             member "healthEffects" TString;
             member "vulnerablePopulations" TString ]);
      member "remediation"
        (TInterface
           [ member "immediate" (TArray TString);
             member "policy" (TArray TString);
             member "community" (TArray TString) ]);
      member "fullReportMarkdown" TString ].

(** A runtime value inhabits a type. *)
Fixpoint well_formed (t : TsType) (v : JsonValue) {struct t} : bool :=
  match t, v with
  | TString, JString _ => true
  | TNumber, JNumber _ => true
  | TLiterals alts, JString s => existsb (String.eqb s) alts
  | TArray e, JArray vs => forallb (well_formed e) vs
  | TInterface ms, JObject fields =>
      (fix each (ms : list (string * (bool * TsType))) : bool :=
         match ms with
         | [] => true
         | (k, (opt, tk)) :: ms' =>
             match lookup k fields with
             | Some vk => well_formed tk vk
             | None => opt
             end && each ms'
         end) ms
  | _, _ => false
  end.

Fixpoint member_lookup (k : string) (ms : list (string * (bool * TsType))) : option TsType :=
  match ms with
  | [] => None
  | (k', (_, t)) :: rest => if String.eqb k k' then Some t else member_lookup k rest
  end.

Fixpoint element (t : TsType) : TsType :=
  match t with
  | TArray e => element e
  | _ => t
  end.

Fixpoint at_path (path : list string) (t : TsType) : option TsType :=
  match path with
  | [] => Some (element t)
  | k :: path' =>
      match element t with
      | TInterface ms =>
          match member_lookup k ms with
          | Some tk => at_path path' tk
          | None => None
          end
      | _ => None
      end
  end.

(** The members an interface declares without [?]. *)
Definition mandatory (ms : list (string * (bool * TsType))) : list string :=
  map fst (filter (fun m => negb (fst (snd m))) ms).

(** The mandatory members of [t] that the value [v] does not have. *)
Definition missing (t : TsType) (v : JsonValue) : list string :=
  match t, v with
  | TInterface ms, JObject fields =>
      filter (fun k => match lookup k fields with Some _ => false | None => true end)
             (mandatory ms)
  | TInterface ms, _ => mandatory ms
  | _, _ => []
  end.

Definition mandatory_at (path : list string) (t : TsType) : option (list string) :=
  match at_path path t with
  | Some (TInterface ms) => Some (mandatory ms)
  | _ => None
  end.

End Types.

(** ** Asynchronous programs *)

Module Async.

Inductive Outcome (A : Type) : Type :=
| Returned (a : A)
| Thrown (e : JsError).
Arguments Returned {A} a.
Arguments Thrown {A} e.

(** A program over component state [S] with result [A]. [Await c k]
    sends [c] to the remote model and resumes [k] with the settled
    promise; [SetState f k] is a React state update. *)
Inductive Prog (S A : Type) : Type :=
| Return (a : A)
| Throw (e : JsError)
| Await (c : Call) (k : Response + JsError -> Prog S A)
| SetState (f : S -> S) (k : Prog S A).
Arguments Return {S A} a.
Arguments Throw {S A} e.
Arguments Await {S A} c k.
Arguments SetState {S A} f k.

Fixpoint bind {S A B : Type} (p : Prog S A) (f : A -> Prog S B) : Prog S B :=
  match p with
  | Return a => f a
  | Throw e => Throw e
  | Await c k => Await c (fun r => bind (k r) f)
  | SetState g k => SetState g (bind k f)
  end.

(** [try { p } catch (e) { h e }] *)
Fixpoint try_catch {S A : Type} (p : Prog S A) (h : JsError -> Prog S A) : Prog S A :=
  match p with
  | Return a => Return a
  | Throw e => h e
  | Await c k => Await c (fun r => try_catch (k r) h)
  | SetState g k => SetState g (try_catch k h)
  end.

(** [try { p } finally { q }] where [q] completes normally. *)
Fixpoint finally {S A : Type} (p : Prog S A) (q : Prog S unit) : Prog S A :=
  match p with
  | Return a => bind q (fun _ => Return a)
  | Throw e => bind q (fun _ => Throw e)
  | Await c k => Await c (fun r => finally (k r) q)
  | SetState g k => SetState g (finally k q)
  end.

(** [await ai.models.generateContent(...)]: a rejected promise throws. *)
Definition await_call {S : Type} (c : Call) : Prog S Response :=
  Await c (fun r => match r with inl resp => Return resp | inr e => Throw e end).

Definition set_state {S : Type} (f : S -> S) : Prog S unit := SetState f (Return tt).

(** The remote model: its answer to a call may depend on the calls it
    has already seen. *)
Definition Oracle : Type := list Call -> Call -> Response + JsError.

Record Run (S A : Type) : Type := mkRun {
  outcome : Outcome A;
  final : S;
  calls : list Call
}.
Arguments mkRun {S A} outcome final calls.
Arguments outcome {S A} r.
Arguments final {S A} r.
Arguments calls {S A} r.

(** Run [p] from component state [st], the remote model having already
    seen [log]. *)
Fixpoint run {S A : Type} (o : Oracle) (p : Prog S A) (st : S) (log : list Call) : Run S A :=
  match p with
  | Return a => mkRun (Returned a) st log
  | Throw e => mkRun (Thrown e) st log
  | Await c k => run o (k (o log c)) st (log ++ [c])
  | SetState f k => run o k (f st) log
  end.

(** The number of calls a program makes along the path the oracle picks. *)
Definition calls_made {S A : Type} (o : Oracle) (p : Prog S A) (st : S) (log : list Call) : nat :=
  length (calls (run o p st log)) - length log.

End Async.
Import Async.

Declare Scope prog_scope.
Delimit Scope prog_scope with prog.
Notation "x <- p ;; q" := (bind p (fun x => q))
  (at level 61, p at next level, right associativity) : prog_scope.
Notation "p ;; q" := (bind p (fun _ => q))
  (at level 61, right associativity) : prog_scope.

(** ** The analysis client ([src/services/geminiService.ts]) *)

Module GeminiService.

Definition SYSTEM_INSTRUCTION : string :=
"You are MicroScan Ocean, an expert AI system specialized in microplastic detection, classification, and environmental health risk analysis.
You combine the knowledge of a marine biologist, environmental chemist, and public health scientist.

Your goal is to analyze microscope images of filtered water samples to provide a detailed report. 
Since you are analyzing images without external metadata, you must:
1. Infer the likely environment (ocean, river, etc.) from the visual characteristics of the sample if possible, or provide a generalized analysis.
2. Estimate magnification and particle sizes based on standard microscope visual cues.
3. Detect and count microplastic particles (fibers, fragments, films, beads, foam).
4. Classify them by type, color, size, and percentage.
5. Calculate severity (estimate particles/L based on a standard sample volume of 1L if not visually apparent) and score (1-10).
6. Attribute likely pollution sources based on particle morphology.
7. Assess marine and human health risks.
8. Provide remediation recommendations.
9. Generate a full summary report.

Tone: Scientifically precise but plain language.
If the image is poor or inconclusive, flag it.
If no plastics are found, report CLEAN.
Always show your reasoning for size and count estimates.

SCORING SCALE:
- 0–10 particles/L → CLEAN (Score 1/10)
- 11–50 particles/L → LOW CONTAMINATION (Score 3/10)
- 51–150 particles/L → MODERATE CONTAMINATION (Score 5/10)
- 151–300 particles/L → HIGH CONTAMINATION (Score 7/10)
- 300+ particles/L → CRITICAL CONTAMINATION (Score 10/10)
".

Definition prompt : string :=
"
    Please analyze the attached microscope image(s) of a water sample.
    Identify any microplastics present. 
    Infer the sample context (likely water source, magnification) from visual evidence.
    Provide a structured JSON response according to the schema.
  ".

(** A property declared without a [required] list beside it. *)
Definition object (properties : list (string * Schema)) : Schema := OBJECT properties [].

Definition responseSchema : Schema :=
  OBJECT
    [ ("reportId", STRING);
      ("analysisDate", STRING);
      ("detection",
        OBJECT
          [ ("totalCount", NUMBER);
            ("confidence", STRING);
            ("reasoning", STRING) ]
          ["totalCount"; "confidence"; "reasoning"]);
      ("classification",
        ARRAY
          (object
             [ ("type", STRING);
               ("count", NUMBER);
               ("colors", ARRAY STRING);
               ("sizeRange", STRING);
               ("percentage", NUMBER) ]));
      ("severity",
        object
          [ ("particlesPerLiter", NUMBER);
            ("score", NUMBER);
            ("level", STRING);
            ("calculation", STRING) ]);
      ("sources",
        ARRAY
          (object
             [ ("source", STRING);
               ("confidence", NUMBER);
               ("reasoning", STRING) ]));
      ("healthRisk",
        object
          [ ("marineRisk", STRING);
            ("humanRiskLevel", STRING);
            ("humanRiskSummary", STRING);
            ("highestRiskTypes", ARRAY STRING);
            ("healthEffects", STRING);
            ("vulnerablePopulations", STRING) ]);
      ("remediation",
        object
          [ ("immediate", ARRAY STRING);
            ("policy", ARRAY STRING);
            ("community", ARRAY STRING) ]);
      ("fullReportMarkdown", STRING) ]
    [ "reportId"; "analysisDate"; "detection"; "classification"; "severity";
      "sources"; "healthRisk"; "remediation"; "fullReportMarkdown" ].

(** [process.env]: the one variable the client reads. *)
Record Env : Type := mkEnv { GEMINI_API_KEY : option string }.

(** [images.map(img => ({ inlineData: { mimeType, data: img.split(',')[1] } }))] *)
Definition imagePart (img : string) : Part :=
  inlineData (mkInline "image/jpeg" (index (split "," img) 1)).

Definition imageParts (images : list string) : list Part := map imagePart images.

(** The argument handed to [generateContent]. *)
Definition generateContentRequest (images : list string) : Request :=
  mkRequest
    "gemini-3-flash-preview"
    (imageParts images ++ [text prompt])
    (mkConfig SYSTEM_INSTRUCTION "application/json" responseSchema).

Section Client.
Context {S : Type} `{JsonHost}.

(** [JSON.parse(s)] as a program step: a [SyntaxError] is thrown. *)
Definition parse (s : string) : Prog S JsonValue :=
  match JSON_parse s with
  | inl v => Return v
  | inr e => Throw e
  end.

Definition analyzeSample (env : Env) (images : list string) : Prog S JsonValue :=
  (let ai_key := or_default (GEMINI_API_KEY env) "" in
   response <- await_call (mkCall ai_key (generateContentRequest images)) ;;
   parse (or_default (response_text response) "{}"))%prog.

(** The one call [analyzeSample] puts on the wire. *)
Definition the_call (env : Env) (images : list string) : Call :=
  mkCall (or_default (GEMINI_API_KEY env) "") (generateContentRequest images).

(** What the caller of [analyzeSample] observes, given the reply. *)
Definition settle (reply : Response + JsError) : Outcome JsonValue :=
  match reply with
  | inl resp =>
      match JSON_parse (or_default (response_text resp) "{}") with
      | inl v => Returned v
      | inr e => Thrown e
      end
  | inr e => Thrown e
  end.

End Client.

(** *** The scoring scale of the system instruction, as data *)

(** One line of the scale: [lo–hi] particles/L, both bounds included, or
    [lo+], that is [lo] or more, when [hi] is absent; with the level and
    the score the line announces. *)
Record Band : Type := mkBand {
  lo : nat;
  hi : option nat;
  level : string;
  score : nat
}.

Definition SCORING_SCALE : list Band :=
  [ mkBand 0 (Some 10) "CLEAN" 1;
    mkBand 11 (Some 50) "LOW CONTAMINATION" 3;
    mkBand 51 (Some 150) "MODERATE CONTAMINATION" 5;
    mkBand 151 (Some 300) "HIGH CONTAMINATION" 7;
    mkBand 300 None "CRITICAL CONTAMINATION" 10 ].

Definition newline : string := String (ascii_of_nat 10) EmptyString.

Definition decimal (n : nat) : string := DecimalString.NilEmpty.string_of_uint (Nat.to_uint n).

(** The line of the instruction that states a band. *)
Definition band_line (b : Band) : string :=
  "- " ++ decimal (lo b)
       ++ match hi b with
          | Some h => "–" ++ decimal h
          | None => "+"
          end
       ++ " particles/L → " ++ level b
       ++ " (Score " ++ decimal (score b) ++ "/10)" ++ newline.

Definition scale_text : string :=
  "SCORING SCALE:" ++ newline ++ String.concat "" (map band_line SCORING_SCALE).

(** Is [suffix] the end of [s]? *)
Definition ends_with (suffix s : string) : bool :=
  String.eqb (substring (String.length s - String.length suffix) (String.length suffix) s) suffix.

(** A density lies in a band when it is within its stated bounds. *)
Definition in_band (x : Q) (b : Band) : bool :=
  Qle_bool (inject_Z (Z.of_nat (lo b))) x
  && match hi b with
     | Some h => Qle_bool x (inject_Z (Z.of_nat h))
     | None => true
     end.

(** The bands the scale assigns to a density. *)
Definition bands_of (x : Q) : list Band := filter (in_band x) SCORING_SCALE.

End GeminiService.
Import GeminiService.

(** ** The upload surface (the [App] component) *)

Module App.

(** The browser's [FileReader.readAsDataURL], with [reader.result as
    string] taken at its declared type. *)
Class FileHost : Type := { File : Type; readAsDataURL : File -> string }.

(** The component's [useState] cells. [result] holds whatever
    [analyzeSample] returned. *)
Record AppState : Type := mkApp {
  images : list string;
  isAnalyzing : bool;
  result : option JsonValue;
  error : option string;
  loadingMessage : string
}.

Definition initial : AppState := mkApp [] false None None "Initializing scan...".

Definition setImages (f : list string -> list string) (st : AppState) : AppState :=
  mkApp (f (images st)) (isAnalyzing st) (result st) (error st) (loadingMessage st).

Definition setIsAnalyzing (b : bool) (st : AppState) : AppState :=
  mkApp (images st) b (result st) (error st) (loadingMessage st).

Definition setResult (r : option JsonValue) (st : AppState) : AppState :=
  mkApp (images st) (isAnalyzing st) r (error st) (loadingMessage st).

Definition setError (e : option string) (st : AppState) : AppState :=
  mkApp (images st) (isAnalyzing st) (result st) e (loadingMessage st).

(** [a.filter((x, i) => keep x i)], counting indices from [i]. *)
Fixpoint filter_index {A : Type} (keep : A -> nat -> bool) (i : nat) (a : list A) : list A :=
  match a with
  | [] => []
  | x :: rest =>
      if keep x i then x :: filter_index keep (Datatypes.S i) rest
      else filter_index keep (Datatypes.S i) rest
  end.

Section Handlers.
Context `{JsonHost} `{FileHost}.

(** [reader.onloadend]: the functional update queued when one file
    has been read. *)
Definition onloadend (file : File) : Prog AppState unit :=
  set_state (setImages (fun prev => (prev ++ [readAsDataURL file])%list)).

(** [Array.from(e.target.files || [])] *)
Definition selected_files (target_files : option (list File)) : list File :=
  match target_files with
  | Some files => files
  | None => []
  end.

(** [handleImageUpload] starts one reader per selected file and
    returns; what it leaves behind is the pending [onloadend]
    callbacks, one per file. *)
Definition handleImageUpload (target_files : option (list File)) : list (Prog AppState unit) :=
  map onloadend (selected_files target_files).

(** Callbacks run to completion one after the other. *)
Fixpoint fire (callbacks : list (Prog AppState unit)) : Prog AppState unit :=
  match callbacks with
  | [] => Return tt
  | cb :: later => (cb ;; fire later)%prog
  end.

(** The readers may finish in any order: a completion order of the
    pending callbacks is any rearrangement of them. *)
Definition completion_of (pending order : list (Prog AppState unit)) : Prop :=
  Permutation pending order.

(** [removeImage(index)]: [prev.filter((_, i) => i !== index)] *)
Definition removeImage (index : nat) : Prog AppState unit :=
  set_state (setImages (filter_index (fun _ i => negb (Nat.eqb i index)) 0)).

(** [handleAnalyze], as created by the render that saw [rendered]. *)
Definition handleAnalyze (env : Env) (rendered : AppState) : Prog AppState unit :=
  (if Nat.eqb (length (images rendered)) 0 then
     set_state (setError (Some "Please upload at least one microscope image."))
   else
     set_state (setIsAnalyzing true) ;;
     set_state (setError None) ;;
     finally
       (try_catch
          (data <- analyzeSample env (images rendered) ;;
           set_state (setResult (Some data)))
          (fun err =>
             set_state
               (setError (Some (or_default (message err)
                                           "An error occurred during analysis.")))))
       (set_state (setIsAnalyzing false)))%prog.

Definition analysis_failed : string := "An error occurred during analysis.".

(** The state [handleAnalyze] leaves, by the outcome of the analysis. *)
Definition analyzed (out : Outcome JsonValue) (current : AppState) : AppState :=
  let started := setError None (setIsAnalyzing true current) in
  setIsAnalyzing false
    match out with
    | Returned data => setResult (Some data) started
    | Thrown err => setError (Some (or_default (message err) analysis_failed)) started
    end.

Definition reset : Prog AppState unit :=
  (set_state (setImages (fun _ => [])) ;;
   set_state (setResult None) ;;
   set_state (setError None))%prog.

End Handlers.

(** [disabled={isAnalyzing || images.length === 0}] on the Run Analysis
    button. *)
Definition run_disabled (st : AppState) : bool :=
  isAnalyzing st || Nat.eqb (length (images st)) 0.

(** The label [{images.length}/5 Slots]. *)
Definition slots_label (st : AppState) : string :=
  decimal (length (images st)) ++ "/5 Slots".

End App.
Import App.

(** ** JavaScript coercions used by the component *)

Module Coercions.

(** The host's [Number.prototype.toString]. *)
Class NumberHost : Type := { Number_toString : Q -> string }.

(** [!!v]: [null], [false], zero and the empty string are falsy. *)
Definition truthy (v : JsonValue) : bool :=
  match v with
  | JNull => false
  | JBool b => b
  | JNumber q => negb (Qeq_bool q (inject_Z 0))
  | JString s => negb (String.eqb s "")
  | JArray _ => true
  | JObject _ => true
  end.

(** [v.k] for a key that no prototype defines: the own field of an
    object, [undefined] on every other non-null value. *)
Definition own_property (v : JsonValue) (k : string) : option JsonValue :=
  match v with
  | JObject fields => lookup k fields
  | _ => None
  end.

Section ToString.
Context `{NumberHost}.

(** [String(v)], [None] when the conversion throws a [TypeError]. An
    array is its elements joined by commas, [null] elements contributing
    nothing. An object is [[object Object]], unless it has an own member
    [toString]: a parsed JSON value is never callable, so that member
    hides the inherited method and the conversion throws. *)
Fixpoint ToString (v : JsonValue) : option string :=
  match v with
  | JNull => Some "null"
  | JBool true => Some "true"
  | JBool false => Some "false"
  | JNumber q => Some (Number_toString q)
  | JString s => Some s
  | JArray items =>
      option_map (String.concat ",")
        ((fix each (xs : list JsonValue) : option (list string) :=
            match xs with
            | [] => Some []
            | x :: xs' =>
                match match x with JNull => Some "" | _ => ToString x end, each xs' with
                | Some piece, Some pieces => Some (piece :: pieces)
                | _, _ => None
                end
            end) items)
  | JObject fields =>
      match lookup "toString" fields with
      | None => Some "[object Object]"
      | Some _ => None
      end
  end.

(** [String(x)] where [x] may be [undefined]. *)
Definition ToString_opt (x : option JsonValue) : option string :=
  match x with
  | Some v => ToString v
  | None => Some "undefined"
  end.

End ToString.

End Coercions.
Import Coercions.

(** ** What happens while a call is pending *)

Module EventLoop.

(** Run [p]; while its first call to the remote model is pending, the
    handlers [meanwhile] run to completion on the component state; then
    [p] resumes with the reply. *)
Fixpoint run_interleaved {S A : Type} (o : Oracle) (p : Prog S A) (meanwhile : Prog S unit)
    (st : S) (log : list Call) : Run S A :=
  match p with
  | Return a => mkRun (Returned a) st log
  | Throw e => mkRun (Thrown e) st log
  | Await c k =>
      let mid := run o meanwhile st (log ++ [c]) in
      run o (k (o log c)) (final mid) (calls mid)
  | SetState f k => run_interleaved o k meanwhile (f st) log
  end.

End EventLoop.
Import EventLoop.

(** ** The rest of the [App] component *)

Module View.

Definition setLoadingMessage (m : string) (st : AppState) : AppState :=
  mkApp (images st) (isAnalyzing st) (result st) (error st) m.

Definition loadingMessages : list string :=
  [ "Scanning image for synthetic polymers...";
    "Classifying particle morphology...";
    "Calculating contamination density...";
    "Assessing environmental health risks...";
    "Attributing potential pollution sources...";
    "Finalizing comprehensive report..." ].

(** The interval callback when its counter is [i]:
    [setLoadingMessage(loadingMessages[i % loadingMessages.length])]. *)
Definition interval_tick (i : nat) : Prog AppState unit :=
  set_state (setLoadingMessage (nth (i mod length loadingMessages) loadingMessages "")).

(** [n] firings of the interval, its counter starting at [i] and going up
    by one each time. *)
Fixpoint interval_ticks (i n : nat) : Prog AppState unit :=
  match n with
  | O => Return tt
  | Datatypes.S n' => (interval_tick i ;; interval_ticks (Datatypes.S i) n')%prog
  end.

(** The effect on [isAnalyzing]: an interval is set up only when
    [isAnalyzing] holds, with its counter at 0; [fired] is how many times
    it fires before the effect is cleaned up. *)
Definition useEffect_interval (analyzing : bool) (fired : nat) : Prog AppState unit :=
  if analyzing then interval_ticks 0 fired else Return tt.

(** The ten bars of the severity banner:
    [[...Array(10)].map((_, i) => i < result.severity.score)], [true] for a
    lit bar. *)
Definition severity_bars (score : Q) : list bool :=
  map (fun i => negb (Qle_bool score (inject_Z (Z.of_nat i)))) (seq 0 10).

(** What [downloadReport] hands to the browser: the content and type of
    the blob and the [download] name of the clicked anchor. *)
Record Download : Type := mkDownload {
  blob_content : string;
  blob_type : string;
  download_name : string
}.

(** How a call of [downloadReport] ends: it returns at once, it clicks
    an anchor that offers a download, or a conversion to string throws
    before the click. *)
Inductive DownloadResult : Type :=
| NoDownload
| Offers (d : Download)
| ThrowsTypeError.

Section Download.
Context `{NumberHost}.

(** [downloadReport]: nothing when [result] is falsy; otherwise the blob
    is built from [result.fullReportMarkdown], then the name from
    [result.reportId]. *)
Definition downloadReport (st : AppState) : DownloadResult :=
  match result st with
  | Some r =>
      if truthy r then
        match ToString_opt (own_property r "fullReportMarkdown") with
        | Some content =>
            match ToString_opt (own_property r "reportId") with
            | Some id =>
                Offers (mkDownload content "text/markdown"
                                   ("MicroScan_Report_" ++ id ++ ".md"))
            | None => ThrowsTypeError
            end
        | None => ThrowsTypeError
        end
      else NoDownload
  | None => NoDownload
  end.

End Download.

End View.
Import View.

(** ** The schema read against the type *)

Module Contract.

Fixpoint interface_member (k : string) (ms : list (string * (bool * Types.TsType)))
    : option (bool * Types.TsType) :=
  match ms with
  | [] => None
  | (k', m) :: rest => if String.eqb k k' then Some m else interface_member k rest
  end.

(** The schema node [s] asks nothing that the type [t] does not
    guarantee: the node types agree, every required property is a
    mandatory member, and every declared property is a member whose type
    the property's schema covers in turn. *)
Fixpoint covers (s : Schema) (t : Types.TsType) {struct s} : bool :=
  match s, t with
  | STRING, Types.TString => true
  | STRING, Types.TLiterals _ => true
  | NUMBER, Types.TNumber => true
  | ARRAY it, Types.TArray e => covers it e
  | OBJECT props req, Types.TInterface ms =>
      forallb (fun k => match interface_member k ms with
                        | Some (opt, _) => negb opt
                        | None => false
                        end) req
      && (fix each (ps : list (string * Schema)) : bool :=
            match ps with
            | [] => true
            | (k, sk) :: ps' =>
                match interface_member k ms with
                | Some (_, tk) => covers sk tk
                | None => false
                end && each ps'
            end) props
  | _, _ => false
  end.

(** Induction on schemas that reaches the properties of an object. *)
Section SchemaInduction.
Variable P : Schema -> Prop.
Hypothesis P_string : P STRING.
Hypothesis P_number : P NUMBER.
Hypothesis P_array : forall it, P it -> P (ARRAY it).
Hypothesis P_object :
  forall props req, Forall (fun kp => P (snd kp)) props -> P (OBJECT props req).

Fixpoint Schema_nested_ind (s : Schema) : P s :=
  match s with
  | STRING => P_string
  | NUMBER => P_number
  | ARRAY it => P_array it (Schema_nested_ind it)
  | OBJECT props req =>
      P_object props req
        ((fix all (ps : list (string * Schema)) : Forall (fun kp => P (snd kp)) ps :=
            match ps with
            | [] => Forall_nil _
            | (k, sk) :: ps' => Forall_cons (k, sk) (Schema_nested_ind sk) (all ps')
            end) props)
  end.

End SchemaInduction.

End Contract.

(** ** Vocabulary of the specification *)

Module Reading.

(** The portion of [s] after its first [sep]; nothing when [s] has no
    [sep]. *)
Fixpoint after_first (sep : ascii) (s : string) : option string :=
  match s with
  | EmptyString => None
  | String c rest => if Ascii.eqb c sep then Some rest else after_first sep rest
  end.

(** The portion of [s] before its first [sep]; all of [s] when it has
    no [sep]. *)
Fixpoint before_first (sep : ascii) (s : string) : string :=
  match s with
  | EmptyString => EmptyString
  | String c rest => if Ascii.eqb c sep then EmptyString else String c (before_first sep rest)
  end.

(** The image part as the specification words it: an inline-data part
    of type image/jpeg whose data is the portion of the image string
    after its first comma. *)
Definition stated_imagePart (img : string) : Part :=
  inlineData (mkInline "image/jpeg" (after_first "," img)).

(** The parts list as the specification words it: the images in their
    given order, then a single text prompt part. *)
Definition stated_parts (images : list string) : list Part :=
  map stated_imagePart images ++ [text prompt].

End Reading.

(** ** Concrete hosts, for running the programs on examples *)

Module Hosts.

Definition is_space (c : ascii) : bool :=
  let n := nat_of_ascii c in
  Nat.eqb n 32 || Nat.eqb n 9 || Nat.eqb n 10 || Nat.eqb n 13.

Fixpoint trim_left (s : string) : string :=
  match s with
  | String c rest => if is_space c then trim_left rest else s
  | EmptyString => EmptyString
  end.

Fixpoint reverse (acc s : string) : string :=
  match s with
  | EmptyString => acc
  | String c rest => reverse (String c acc) rest
  end.

Definition trim (s : string) : string :=
  reverse "" (trim_left (reverse "" (trim_left s))).

Definition digit (c : ascii) : option nat :=
  let n := nat_of_ascii c in
  if Nat.leb 48 n && Nat.leb n 57 then Some (n - 48) else None.

Fixpoint natural (acc : nat) (s : string) : option nat :=
  match s with
  | EmptyString => Some acc
  | String c rest =>
      match digit c with
      | Some d => natural (10 * acc + d) rest
      | None => None
      end
  end.

(** A parser for the JSON texts without nesting: the three literals,
    the empty object, the empty array and unsigned integers, surrounded
    by optional white space. Everything else is rejected. *)
Definition parse_flat (s : string) : JsonValue + JsError :=
  let t := trim s in
  if String.eqb t "null" then inl JNull
  else if String.eqb t "true" then inl (JBool true)
  else if String.eqb t "false" then inl (JBool false)
  else if String.eqb t "{}" then inl (JObject [])
  else if String.eqb t "[]" then inl (JArray [])
  else match t, natural 0 t with
       | String _ _, Some n => inl (JNumber (inject_Z (Z.of_nat n)))
       | _, _ => inr (mkError (Some "Unexpected token in JSON"))
       end.

Definition flat_json : JsonHost := {| JSON_parse := parse_flat |}.

(** Files given by their MIME type and their content, already in
    base64. *)
Definition encoded_files : FileHost :=
  {| File := string * string;
     readAsDataURL := fun f => ("data:" ++ fst f ++ ";base64," ++ snd f)%string |}.

(** A report the remote model may send: every top-level member is
    there, [detection] is complete, and the other nested objects are
    empty. *)
Definition hollow_report : JsonValue :=
  JObject
    [ ("reportId", JString "MS-0001");
      ("analysisDate", JString "2026-01-01");
      ("detection",
        JObject
          [ ("totalCount", JNumber (inject_Z 0));
            ("confidence", JString "High");
            ("reasoning", JString "No particles visible.") ]);
      ("classification", JArray []);
      ("severity", JObject []);
      ("sources", JArray []);
      ("healthRisk", JObject []);
      ("remediation", JObject []);
      ("fullReportMarkdown", JString "CLEAN") ].

Definition png : string := "data:image/png;base64,iVBORw0KGgo=".
Definition jpeg : string := "data:image/jpeg;base64,/9j/4AAQSkZJRg==".

Definition env : Env := mkEnv (Some "test-key").

(** Three files selected in one upload. *)
Definition selected : list (string * string) :=
  [ ("image/png", "iVBORw0KGgo="); ("image/jpeg", "/9j/4AAQSkZJRg=="); ("image/png", "AAAA") ].

(** A state that already holds four images. *)
Definition four_images : AppState :=
  mkApp [png; jpeg; png; jpeg] false None None "Initializing scan...".

(** A remote model that answers every call with the same text. *)
Definition answers (t : option string) : Oracle := fun _ _ => inl (mkResponse t).


(** A remote model that rejects every call. *)
Definition rejects (msg : option string) : Oracle := fun _ _ => inr (mkError msg).

End Hosts.

(** ** Sample values *)

Module Samples.

(** A host that prints whole numbers in decimal. *)
Definition whole_numbers : NumberHost :=
  {| Number_toString := fun q =>
       match Qnum q with
       | Zneg _ => ("-" ++ decimal (Z.to_nat (Z.opp (Qnum q))))%string
       | _ => decimal (Z.to_nat (Qnum q))
       end |}.

Definition number (n : nat) : JsonValue := JNumber (inject_Z (Z.of_nat n)).

(** A report with every member the type declares. *)
Definition complete_report : JsonValue :=
  JObject
    [ ("reportId", JString "MS-0042");
      ("analysisDate", JString "2026-01-01");
      ("detection",
        JObject
          [ ("totalCount", number 12);
            ("confidence", JString "Medium");
            ("reasoning", JString "Twelve fibers counted at 40x.") ]);
      ("classification",
        JArray
          [ JObject
              [ ("type", JString "fiber");
                ("count", number 12);
                ("colors", JArray [JString "blue"; JString "red"]);
                ("sizeRange", JString "0.1-1mm");
                ("percentage", number 100) ] ]);
      ("severity",
        JObject
          [ ("particlesPerLiter", number 12);
            ("score", number 3);
            ("level", JString "LOW CONTAMINATION");
            ("calculation", JString "12 particles in 1L") ]);
      ("sources",
        JArray
          [ JObject
              [ ("source", JString "Textile laundering");
                ("confidence", number 80);
                ("reasoning", JString "Fibers dominate.") ] ]);
      ("healthRisk",
        JObject
          [ ("marineRisk", JString "Low");
            ("humanRiskLevel", JString "LOW");
            ("humanRiskSummary", JString "Limited exposure.");
            ("highestRiskTypes", JArray [JString "fiber"]);
            ("healthEffects", JString "None expected.");
            ("vulnerablePopulations", JString "None.") ]);
      ("remediation",
        JObject
          [ ("immediate", JArray [JString "Filter"]);
            ("policy", JArray []);
            ("community", JArray []) ]);
      ("fullReportMarkdown", JString "# Report") ].

(** A state showing the complete report. *)
Definition reported : AppState :=
  mkApp [Hosts.png] false (Some complete_report) None "Initializing scan...".

(** A state with one image and nothing analysed yet. *)
Definition one_image : AppState :=
  mkApp [Hosts.png] false None None "Initializing scan...".

End Samples.

(** * Properties *)

(** ** Running the client *)

Section ClientRuns.
Context {S : Type} `{JsonHost}.

Lemma run_analyzeSample (o : Oracle) (env : Env) (images : list string) (st : S) (log : list Call) :
  run o (analyzeSample env images) st log
  = mkRun (settle (o log (the_call env images))) st (log ++ [the_call env images]).
Proof.
  unfold analyzeSample, await_call, the_call, settle, parse; cbn.
  destruct (o log _) as [resp | e]; cbn; [ | reflexivity ].
  destruct (JSON_parse _); reflexivity.
Qed.

(** C1. For every pair of image lists, the two runs of [analyzeSample]
    each put one request on the wire; both requests name the model
    gemini-3-flash-preview and carry the same system instruction, the
    same response schema (indeed the same whole config) and the same
    prompt text as their last part. The requests differ only in the
    image parts in front of the prompt, which are derived from the
    respective input. *)
Theorem analyzeSample_request_is_fixed
    (o1 o2 : Oracle) (env : Env) (images1 images2 : list string)
    (st1 st2 : S) (log1 log2 : list Call) :
  exists r1 r2 : Request,
    calls (run o1 (analyzeSample env images1) st1 log1) = log1 ++ [mkCall (apiKey (the_call env images1)) r1]
    /\ calls (run o2 (analyzeSample env images2) st2 log2) = log2 ++ [mkCall (apiKey (the_call env images2)) r2]
    /\ model r1 = "gemini-3-flash-preview" /\ model r2 = "gemini-3-flash-preview"
    /\ systemInstruction (config r1) = SYSTEM_INSTRUCTION
    /\ systemInstruction (config r2) = SYSTEM_INSTRUCTION
    /\ GenAI.responseSchema (config r1) = GeminiService.responseSchema
    /\ GenAI.responseSchema (config r2) = GeminiService.responseSchema
    /\ config r1 = config r2
    /\ parts r1 = imageParts images1 ++ [text prompt]
    /\ parts r2 = imageParts images2 ++ [text prompt]
    /\ mkRequest (model r1) (imageParts images2 ++ [text prompt]) (config r1) = r2.
Proof.
  exists (generateContentRequest images1), (generateContentRequest images2).
  rewrite !run_analyzeSample; cbn [calls the_call apiKey].
  repeat split; reflexivity.
Qed.

End ClientRuns.

Section ClientResults.
Context {S : Type} `{JsonHost}.

(** C4. Whenever the reply's text is a non-empty string [t] that
    [JSON.parse] accepts with value [v], [analyzeSample] returns exactly
    [v] (that is, [JSON.parse t] itself, nothing added, removed or
    transformed), component state is untouched and the one call made is
    the request for these images. *)
Theorem analyzeSample_returns_parsed_text
    (o : Oracle) (env : Env) (images : list string) (st : S) (log : list Call)
    (resp : Response) (t : string) (v : JsonValue) :
  o log (the_call env images) = inl resp ->
  response_text resp = Some t ->
  t <> "" ->
  JSON_parse t = inl v ->
  run o (analyzeSample env images) st log
  = mkRun (Returned v) st (log ++ [the_call env images]).
Proof.
  intros Hreply Htext Hne Hparse.
  rewrite run_analyzeSample, Hreply; cbn [settle]; rewrite Htext.
  destruct t as [ | c t' ]; [ contradiction | ].
  cbn [or_default]; rewrite Hparse; reflexivity.
Qed.

(** X2. When the non-empty text is not JSON, the [SyntaxError] of
    [JSON.parse] is what [analyzeSample] throws. *)
Lemma analyzeSample_throws_syntax_error
    (o : Oracle) (env : Env) (images : list string) (st : S) (log : list Call)
    (resp : Response) (t : string) (e : JsError) :
  o log (the_call env images) = inl resp ->
  response_text resp = Some t ->
  t <> "" ->
  JSON_parse t = inr e ->
  outcome (run o (analyzeSample env images) st log) = Thrown e.
Proof.
  intros Hreply Htext Hne Hparse.
  rewrite run_analyzeSample, Hreply; cbn [settle outcome]; rewrite Htext.
  destruct t as [ | c t' ]; [ contradiction | ].
  cbn [or_default]; rewrite Hparse; reflexivity.
Qed.

(** C6. If the reply's text is undefined or the empty string,
    [analyzeSample] does not throw: it returns what [JSON.parse] makes of
    the text [{}], the empty object. That object has none of the members
    [AnalysisResult] declares, so it is not a well-formed
    [AnalysisResult]. *)
Theorem analyzeSample_empty_text_gives_empty_object
    (o : Oracle) (env : Env) (images : list string) (st : S) (log : list Call)
    (resp : Response) :
  JSON_parse "{}" = inl (JObject []) ->
  o log (the_call env images) = inl resp ->
  response_text resp = None \/ response_text resp = Some "" ->
  exists returned : JsonValue,
    outcome (run o (analyzeSample env images) st log) = Returned returned
    /\ returned = JObject []
    /\ Types.mandatory_at [] Types.AnalysisResult
       = Some [ "reportId"; "analysisDate"; "detection"; "classification"; "severity";
                "sources"; "healthRisk"; "remediation"; "fullReportMarkdown" ]
    /\ Some (Types.missing Types.AnalysisResult returned)
       = Types.mandatory_at [] Types.AnalysisResult
    /\ Types.well_formed Types.AnalysisResult returned = false.
Proof.
  intros Hempty Hreply Htext.
  exists (JObject []).
  rewrite run_analyzeSample, Hreply; cbn [settle outcome].
  split; [ | repeat split ].
  destruct Htext as [-> | ->]; cbn [or_default]; rewrite Hempty; reflexivity.
Qed.

(** C10. [analyzeSample] keeps no state across calls. Take two
    invocations with the same images, at any two moments (any component
    states, any histories of earlier calls, any two remote models): if
    the remote model gives them the same reply, they produce the same
    outcome. Neither invocation reads or writes component state, and
    all either leaves behind is its one call appended to the history. *)
Theorem analyzeSample_is_stateless
    (o1 o2 : Oracle) (env1 env2 : Env) (images : list string)
    (st1 st2 : S) (log1 log2 : list Call) :
  o1 log1 (the_call env1 images) = o2 log2 (the_call env2 images) ->
  outcome (run o1 (analyzeSample env1 images) st1 log1)
  = outcome (run o2 (analyzeSample env2 images) st2 log2)
  /\ final (run o1 (analyzeSample env1 images) st1 log1) = st1
  /\ final (run o2 (analyzeSample env2 images) st2 log2) = st2
  /\ calls (run o1 (analyzeSample env1 images) st1 log1) = log1 ++ [the_call env1 images]
  /\ calls (run o2 (analyzeSample env2 images) st2 log2) = log2 ++ [the_call env2 images].
Proof.
  intros Hsame.
  rewrite !run_analyzeSample; cbn [outcome final calls].
  rewrite Hsame; repeat split.
Qed.

End ClientResults.

(** ** Packaging the images *)

Section Splitting.
Variable sep : ascii.

Lemma split_head (s : string) :
  exists pieces, split sep s = Reading.before_first sep s :: pieces.
Proof.
  induction s as [ | c rest [pieces IH] ]; cbn.
  - exists []; reflexivity.
  - destruct (Ascii.eqb c sep).
    + eexists; reflexivity.
    + rewrite IH; eexists; reflexivity.
Qed.

(** [s.split(sep)[1]] is the piece between the first and the second
    separator. *)
Lemma split_second (s : string) :
  index (split sep s) 1
  = option_map (Reading.before_first sep) (Reading.after_first sep s).
Proof.
  induction s as [ | c rest IH ]; cbn.
  - reflexivity.
  - destruct (Ascii.eqb c sep); cbn.
    + destruct (split_head rest) as [pieces ->]; reflexivity.
    + destruct (split_head rest) as [pieces Hhead].
      rewrite Hhead in IH |- *; exact IH.
Qed.

Lemma before_first_absent (s : string) :
  occurs sep s = false -> Reading.before_first sep s = s.
Proof.
  induction s as [ | c rest IH ]; cbn; [ reflexivity | ].
  destruct (Ascii.eqb c sep); cbn; [ discriminate | ].
  intros Hrest; rewrite (IH Hrest); reflexivity.
Qed.

Lemma after_first_absent (s : string) :
  occurs sep s = false -> Reading.after_first sep s = None.
Proof.
  induction s as [ | c rest IH ]; cbn; [ reflexivity | ].
  destruct (Ascii.eqb c sep); cbn; [ discriminate | exact IH ].
Qed.

End Splitting.

(** X24. An image string with one comma only, as [readAsDataURL] produces,
    is packaged with everything after the comma. *)
Lemma imagePart_single_comma (img payload : string) :
  Reading.after_first "," img = Some payload ->
  occurs "," payload = false ->
  imagePart img = Reading.stated_imagePart img.
Proof.
  intros Hafter Hnone.
  unfold imagePart, Reading.stated_imagePart.
  rewrite split_second, Hafter; cbn [option_map].
  rewrite (before_first_absent _ _ Hnone); reflexivity.
Qed.

(** X25. An image string without a comma is packaged with [data] undefined. *)
Lemma imagePart_no_comma (img : string) :
  occurs "," img = false ->
  imagePart img = inlineData (mkInline "image/jpeg" None).
Proof.
  intros Hnone; unfold imagePart.
  rewrite split_second, (after_first_absent _ _ Hnone); reflexivity.
Qed.

(** C3, as stated, fails: for the one-image list [["a,b,c"]] the part
    sent carries the data [b], not the portion [b,c] after the first
    comma. *)
Lemma data_stops_at_second_comma :
  ~ (forall (S : Type) (H : JsonHost) (o : Oracle) (env : Env) (images : list string)
            (st : S) (log : list Call),
        images <> [] ->
        exists c : Call,
          calls (run o (analyzeSample env images) st log) = log ++ [c]
          /\ parts (request c) = Reading.stated_parts images).
Proof.
  intros Hclaim.
  destruct (Hclaim unit Hosts.flat_json (Hosts.answers None) (mkEnv None) ["a,b,c"] tt [])
    as [c [Hcalls Hparts]]; [ discriminate | ].
  rewrite run_analyzeSample in Hcalls; cbn in Hcalls.
  injection Hcalls as <-.
  cbn in Hparts; discriminate Hparts.
Qed.

Section Packaging.
Context {S : Type} `{JsonHost}.

(** C3, amended. Each invocation of [analyzeSample] with a non-empty
    image list makes exactly one call, whose parts are the input images
    in their given order followed by the single text prompt part. Each
    image is packaged as an inline-data part of type image/jpeg whose
    data is the piece of the image string between its first comma and
    its second comma (or the end of the string when there is no second
    comma), and is undefined when the string has no comma. *)
Theorem analyzeSample_one_call_with_images_then_prompt
    (o : Oracle) (env : Env) (images : list string) (st : S) (log : list Call) :
  images <> [] ->
  exists c : Call,
    calls (run o (analyzeSample env images) st log) = log ++ [c]
    /\ calls_made o (analyzeSample env images) st log = 1
    /\ parts (request c)
       = map (fun img =>
                inlineData
                  (mkInline "image/jpeg"
                     (option_map (Reading.before_first ",") (Reading.after_first "," img))))
             images
         ++ [text prompt].
Proof.
  intros _.
  exists (the_call env images).
  unfold calls_made; rewrite run_analyzeSample; cbn [calls].
  split; [ reflexivity | split ].
  - rewrite length_app; cbn; lia.
  - cbn; unfold imageParts; f_equal.
    apply map_ext; intros img; unfold imagePart.
    rewrite split_second; reflexivity.
Qed.

End Packaging.

(** ** The handlers *)

Section HandlerRuns.
Context `{JsonHost} `{FileHost}.

Lemma run_handleAnalyze (o : Oracle) (env : Env) (rendered current : AppState) (log : list Call) :
  images rendered <> [] ->
  run o (handleAnalyze env rendered) current log
  = mkRun (Returned tt)
          (analyzed (settle (o log (the_call env (images rendered)))) current)
          (log ++ [the_call env (images rendered)]).
Proof.
  intros Hne; unfold handleAnalyze, analyzed, analysis_failed.
  destruct (images rendered) as [ | img imgs ] eqn:Himgs; [ contradiction | ].
  cbn -[the_call generateContentRequest]; unfold the_call, settle, parse.
  destruct (o log _) as [resp | e]; cbn; [ | reflexivity ].
  destruct (JSON_parse _); reflexivity.
Qed.

Lemma run_fire_onloadend (o : Oracle) (files : list File) (st : AppState) (log : list Call) :
  run o (fire (map onloadend files)) st log
  = mkRun (Returned tt) (setImages (fun prev => prev ++ map readAsDataURL files) st) log.
Proof.
  revert st; induction files as [ | file later IH ]; intros st; cbn.
  - unfold setImages; rewrite app_nil_r; destruct st; reflexivity.
  - rewrite IH; unfold setImages; cbn.
    rewrite <- app_assoc; reflexivity.
Qed.

(** Any completion order of an upload fires the [onloadend] of some
    rearrangement of the selected files. *)
Lemma completion_rearranges (target_files : option (list File))
    (order : list (Prog AppState unit)) :
  completion_of (handleImageUpload target_files) order ->
  exists files',
    order = map onloadend files' /\ Permutation (selected_files target_files) files'.
Proof.
  unfold completion_of, handleImageUpload; intros Hperm.
  apply Permutation_sym, Permutation_map_inv in Hperm.
  destruct Hperm as [files' [Horder Hfiles]].
  exists files'; split; [ exact Horder | exact Hfiles ].
Qed.

(** When the remote call is rejected, [handleAnalyze] reports the error's
    message, or the stock message when it has none, and analysis is no
    longer in progress. *)
Lemma handleAnalyze_rejected
    (o : Oracle) (env : Env) (rendered current : AppState) (log : list Call) (err : JsError) :
  images rendered <> [] ->
  o log (the_call env (images rendered)) = inr err ->
  let after := final (run o (handleAnalyze env rendered) current log) in
  error after = Some (or_default (message err) analysis_failed)
  /\ isAnalyzing after = false
  /\ result after = result current.
Proof.
  intros Hne Hreply after; subst after.
  rewrite (run_handleAnalyze o env rendered current log Hne), Hreply.
  repeat split.
Qed.

(** C7. If the images list is empty when [handleAnalyze] runs, the
    handler is the single update that sets [error] to the upload
    message: run from any current state it returns having made no call
    to the remote model (so [analyzeSample] was not invoked), with
    [isAnalyzing], [result] and the images as they were. The Run
    Analysis button is disabled in every state whose images list is
    empty. *)
Theorem handleAnalyze_without_images
    (o : Oracle) (env : Env) (rendered current : AppState) (log : list Call) :
  images rendered = [] ->
  let after := run o (handleAnalyze env rendered) current log in
  handleAnalyze env rendered
  = set_state (setError (Some "Please upload at least one microscope image."))
  /\ outcome after = Returned tt
  /\ calls after = log
  /\ error (final after) = Some "Please upload at least one microscope image."
  /\ isAnalyzing (final after) = isAnalyzing current
  /\ result (final after) = result current
  /\ images (final after) = images current
  /\ loadingMessage (final after) = loadingMessage current
  /\ run_disabled rendered = true.
Proof.
  intros Hempty after; subst after.
  unfold handleAnalyze, run_disabled; rewrite Hempty; cbn.
  rewrite orb_true_r; repeat split.
Qed.

(** C8. [handleImageUpload] leaves one pending callback per selected
    file; in whatever order the readers finish, the images list ends as
    the previous list followed by the data URL of every selected file,
    each exactly once, in completion order. Every previously uploaded
    image is unchanged and keeps its position, and nothing else in the
    state changes. *)
Theorem handleImageUpload_appends
    (o : Oracle) (target_files : option (list File)) (order : list (Prog AppState unit))
    (st : AppState) (log : list Call) :
  completion_of (handleImageUpload target_files) order ->
  let files := match target_files with Some chosen => chosen | None => [] end in
  let after := run o (fire order) st log in
  exists completed : list File,
    Permutation files completed
    /\ order = map onloadend completed
    /\ images (final after) = images st ++ map readAsDataURL completed
    /\ length (images (final after)) = length (images st) + length files
    /\ (forall file, In file files -> In (readAsDataURL file) (images (final after)))
    /\ (forall i img, nth_error (images st) i = Some img ->
                      nth_error (images (final after)) i = Some img)
    /\ firstn (length (images st)) (images (final after)) = images st
    /\ isAnalyzing (final after) = isAnalyzing st
    /\ result (final after) = result st
    /\ error (final after) = error st
    /\ loadingMessage (final after) = loadingMessage st
    /\ calls after = log.
Proof.
  intros Hdone files after; subst after.
  destruct (completion_rearranges target_files order Hdone) as [completed [-> Hperm]].
  assert (Hfiles : Permutation files completed).
  { subst files; destruct target_files; exact Hperm. }
  clear Hperm Hdone.
  rewrite run_fire_onloadend; cbn.
  exists completed; repeat split.
  - exact Hfiles.
  - rewrite length_app, length_map, (Permutation_length Hfiles); reflexivity.
  - intros file Hin.
    apply in_or_app; right; apply in_map.
    exact (Permutation_in file Hfiles Hin).
  - intros i img Hi.
    rewrite nth_error_app1; [ exact Hi | ].
    apply nth_error_Some; rewrite Hi; discriminate.
  - rewrite firstn_app, Nat.sub_diag, firstn_all; cbn.
    apply app_nil_r.
Qed.


End HandlerRuns.

(** ** The scoring scale *)

(** The data [SCORING_SCALE] is the scale the system instruction ends
    with, line for line. *)
Lemma scale_is_stated : ends_with scale_text SYSTEM_INSTRUCTION = true.
Proof. vm_compute; reflexivity. Qed.

(** Every score the scale announces is a 1-10 rating. *)
Lemma scores_are_ratings : Forall (fun b => 1 <= score b <= 10) SCORING_SCALE.
Proof. unfold SCORING_SCALE; repeat constructor. Qed.

Lemma in_band_whole (n : nat) (b : Band) :
  in_band (inject_Z (Z.of_nat n)) b
  = (lo b <=? n) && match hi b with Some h => n <=? h | None => true end.
Proof.
  unfold in_band.
  assert (Hle : forall a c : nat,
             Qle_bool (inject_Z (Z.of_nat a)) (inject_Z (Z.of_nat c)) = (a <=? c)).
  { intros a c; unfold Qle_bool, inject_Z; cbn [Qnum Qden].
    rewrite !Z.mul_1_r.
    destruct (Nat.leb_spec a c); [ apply Z.leb_le | apply Z.leb_gt ]; lia. }
  rewrite Hle; destruct (hi b) as [h | ]; [ rewrite Hle | ]; reflexivity.
Qed.

(** X26. A whole number of particles per liter other than 300 lies in exactly
    one band. *)
Lemma whole_density_one_band (n : nat) :
  n <> 300 -> exists b, bands_of (inject_Z (Z.of_nat n)) = [b].
Proof.
  intros Hn; unfold bands_of, SCORING_SCALE; cbn [filter].
  rewrite !in_band_whole; cbn [lo hi].
  repeat match goal with
         | |- context [ ?a <=? ?b ] => destruct (Nat.leb_spec a b)
         end; cbn [andb]; try lia; eexists; reflexivity.
Qed.

(** A density between two whole numbers can fall between two bands. *)
Lemma fractional_density_no_band : bands_of (21 # 2) = [].
Proof. reflexivity. Qed.

(** C2. At 300 particles per liter the scale assigns two levels and two
    scores: the band 151-300 (HIGH, 7) and the band 300+ (CRITICAL, 10)
    both contain it. *)
Theorem scoring_scale_overlaps_at_300 :
  map (fun b => (level b, score b)) (bands_of (inject_Z 300))
  = [ ("HIGH CONTAMINATION", 7); ("CRITICAL CONTAMINATION", 10) ].
Proof. reflexivity. Qed.

(** ** The response schema against the declared type *)

(** At the top level and inside [detection] the schema requires what the
    type declares. *)
Lemma required_matches_at_top_and_detection :
  required_at [] responseSchema = Types.mandatory_at [] Types.AnalysisResult
  /\ required_at ["detection"] responseSchema
     = Types.mandatory_at ["detection"] Types.AnalysisResult.
Proof. split; reflexivity. Qed.

(** Inside the five other nested objects the schema requires nothing. *)
Lemma nothing_required_elsewhere :
  Forall (fun path => required_at path responseSchema = Some [])
         [ ["classification"]; ["severity"]; ["sources"]; ["healthRisk"]; ["remediation"] ].
Proof. repeat constructor. Qed.

(** The schema does not confine [confidence] to the type's literals. *)
Lemma schema_admits_other_confidence :
  let detection :=
    JObject [ ("totalCount", JNumber (inject_Z 0));
              ("confidence", JString "Certain");
              ("reasoning", JString "") ] in
  (exists s, at_path ["detection"] responseSchema = Some s /\ conforms s detection = true)
  /\ (exists t, Types.at_path ["detection"] Types.AnalysisResult = Some t
                /\ Types.well_formed t detection = false).
Proof. split; eexists; split; reflexivity. Qed.

(** C5. The schema does not require what the type declares inside
    [severity] (nor inside the other nested objects without a [required]
    list): the hollow report, whose [severity] is the empty object,
    conforms to the schema and is not a well-formed [AnalysisResult]. *)
Theorem schema_accepts_hollow_report :
  conforms responseSchema Hosts.hollow_report = true
  /\ Types.well_formed Types.AnalysisResult Hosts.hollow_report = false
  /\ required_at ["severity"] responseSchema = Some []
  /\ Types.mandatory_at ["severity"] Types.AnalysisResult
     = Some ["particlesPerLiter"; "score"; "level"; "calculation"].
Proof. repeat split. Qed.

(** ** The theorems at work on concrete runs *)

Lemma analyzeSample_one_call_with_images_then_prompt_witness :
  [Hosts.png; Hosts.jpeg] <> []
  /\ exists c : Call,
       calls (run (Hosts.answers (Some "{}"))
                  (analyzeSample (H := Hosts.flat_json) Hosts.env [Hosts.png; Hosts.jpeg]) tt [])
       = [] ++ [c]
       /\ calls_made (Hosts.answers (Some "{}"))
                     (analyzeSample (H := Hosts.flat_json) Hosts.env [Hosts.png; Hosts.jpeg]) tt []
          = 1
       /\ parts (request c)
          = map (fun img =>
                   inlineData
                     (mkInline "image/jpeg"
                        (option_map (Reading.before_first ",") (Reading.after_first "," img))))
                [Hosts.png; Hosts.jpeg]
            ++ [text prompt].
Proof.
  split; [ discriminate | ].
  apply (@analyzeSample_one_call_with_images_then_prompt
           unit Hosts.flat_json (Hosts.answers (Some "{}")) Hosts.env
           [Hosts.png; Hosts.jpeg] tt []).
  discriminate.
Defined.

Lemma analyzeSample_returns_parsed_text_witness :
  Hosts.answers (Some " [] ") [] (the_call Hosts.env [Hosts.png]) = inl (mkResponse (Some " [] "))
  /\ " [] " <> ""
  /\ JSON_parse (JsonHost := Hosts.flat_json) " [] " = inl (JArray [])
  /\ run (Hosts.answers (Some " [] "))
         (analyzeSample (H := Hosts.flat_json) Hosts.env [Hosts.png]) tt []
     = mkRun (Returned (JArray [])) tt ([] ++ [the_call Hosts.env [Hosts.png]]).
Proof.
  split; [ reflexivity | split; [ discriminate | split; [ reflexivity | ] ] ].
  apply (@analyzeSample_returns_parsed_text
           unit Hosts.flat_json (Hosts.answers (Some " [] ")) Hosts.env [Hosts.png] tt []
           (mkResponse (Some " [] ")) " [] " (JArray []));
    [ reflexivity | reflexivity | discriminate | reflexivity ].
Defined.

Lemma analyzeSample_empty_text_gives_empty_object_witness :
  JSON_parse (JsonHost := Hosts.flat_json) "{}" = inl (JObject [])
  /\ Hosts.answers None [] (the_call Hosts.env [Hosts.png]) = inl (mkResponse None)
  /\ outcome (run (Hosts.answers None)
                  (analyzeSample (H := Hosts.flat_json) Hosts.env [Hosts.png]) tt [])
     = Returned (JObject []).
Proof.
  split; [ reflexivity | split; [ reflexivity | ] ].
  destruct (@analyzeSample_empty_text_gives_empty_object
              unit Hosts.flat_json (Hosts.answers None) Hosts.env [Hosts.png] tt []
              (mkResponse None) eq_refl eq_refl (or_introl eq_refl))
    as [returned [Hout [Hret _]]].
  rewrite Hout, Hret; reflexivity.
Defined.

Lemma analyzeSample_is_stateless_witness :
  Hosts.answers (Some "true") [] (the_call Hosts.env [Hosts.png])
  = Hosts.answers (Some "true") [the_call Hosts.env [Hosts.jpeg]] (the_call Hosts.env [Hosts.png])
  /\ outcome (run (Hosts.answers (Some "true"))
                  (analyzeSample (H := Hosts.flat_json) Hosts.env [Hosts.png])
                  Hosts.four_images [])
     = outcome (run (Hosts.answers (Some "true"))
                    (analyzeSample (H := Hosts.flat_json) Hosts.env [Hosts.png])
                    initial [the_call Hosts.env [Hosts.jpeg]]).
Proof.
  split; [ reflexivity | ].
  apply (@analyzeSample_is_stateless
           AppState Hosts.flat_json (Hosts.answers (Some "true")) (Hosts.answers (Some "true"))
           Hosts.env Hosts.env [Hosts.png] Hosts.four_images initial
           [] [the_call Hosts.env [Hosts.jpeg]]).
  reflexivity.
Defined.

Lemma handleAnalyze_without_images_witness :
  images initial = []
  /\ final (run (Hosts.answers (Some "{}"))
                (handleAnalyze (H := Hosts.flat_json) Hosts.env initial) initial [])
     = setError (Some "Please upload at least one microscope image.") initial
  /\ calls (run (Hosts.answers (Some "{}"))
                (handleAnalyze (H := Hosts.flat_json) Hosts.env initial) initial [])
     = [].
Proof.
  split; [ reflexivity | ].
  pose proof (@handleAnalyze_without_images
                Hosts.flat_json (Hosts.answers (Some "{}")) Hosts.env initial initial []
                eq_refl) as Hrun.
  cbv zeta in Hrun.
  split; [ reflexivity | apply Hrun ].
Defined.

Lemma handleImageUpload_appends_witness :
  completion_of (handleImageUpload (H0 := Hosts.encoded_files) (Some Hosts.selected))
                (rev (handleImageUpload (H0 := Hosts.encoded_files) (Some Hosts.selected)))
  /\ (exists completed : list (string * string),
        Permutation Hosts.selected completed
        /\ images (final (run (Hosts.answers None)
                              (fire (rev (handleImageUpload (H0 := Hosts.encoded_files)
                                                            (Some Hosts.selected))))
                              Hosts.four_images []))
           = images Hosts.four_images
             ++ map (readAsDataURL (FileHost := Hosts.encoded_files)) completed)
  /\ images (final (run (Hosts.answers None)
                        (fire (rev (handleImageUpload (H0 := Hosts.encoded_files)
                                                      (Some Hosts.selected))))
                        Hosts.four_images []))
     = [ Hosts.png; Hosts.jpeg; Hosts.png; Hosts.jpeg;
         "data:image/png;base64,AAAA"; Hosts.jpeg; Hosts.png ].
Proof.
  assert (Hdone : completion_of
                    (handleImageUpload (H0 := Hosts.encoded_files) (Some Hosts.selected))
                    (rev (handleImageUpload (H0 := Hosts.encoded_files) (Some Hosts.selected)))).
  { apply Permutation_rev. }
  split; [ exact Hdone | split; [ | reflexivity ] ].
  destruct (@handleImageUpload_appends
              Hosts.encoded_files (Hosts.answers None) (Some Hosts.selected) _
              Hosts.four_images [] Hdone)
    as [completed [Hperm [_ [Himages _]]]].
  exists completed; split; [ exact Hperm | exact Himages ].
Defined.


(** * Further properties of the code *)

(** ** Every well-formed result is accepted by the schema *)

Section SchemaCoversType.

Lemma well_formed_interface_cons
    (k : string) (opt : bool) (tk : Types.TsType)
    (ms : list (string * (bool * Types.TsType))) (fields : list (string * JsonValue)) :
  Types.well_formed (Types.TInterface ((k, (opt, tk)) :: ms)) (JObject fields)
  = (match lookup k fields with
     | Some vk => Types.well_formed tk vk
     | None => opt
     end
     && Types.well_formed (Types.TInterface ms) (JObject fields))%bool.
Proof. reflexivity. Qed.

Lemma conforms_object_split
    (props : list (string * Schema)) (req : list string) (fields : list (string * JsonValue)) :
  conforms (OBJECT props req) (JObject fields)
  = (forallb (fun k => match lookup k fields with Some _ => true | None => false end) req
     && conforms (OBJECT props []) (JObject fields))%bool.
Proof. reflexivity. Qed.

Lemma conforms_object_cons
    (k : string) (sk : Schema) (props : list (string * Schema))
    (fields : list (string * JsonValue)) :
  conforms (OBJECT ((k, sk) :: props) []) (JObject fields)
  = (match lookup k fields with
     | Some vk => conforms sk vk
     | None => true
     end
     && conforms (OBJECT props []) (JObject fields))%bool.
Proof. reflexivity. Qed.

Lemma covers_object_split
    (props : list (string * Schema)) (req : list string)
    (ms : list (string * (bool * Types.TsType))) :
  Contract.covers (OBJECT props req) (Types.TInterface ms)
  = (forallb (fun k => match Contract.interface_member k ms with
                       | Some (opt, _) => negb opt
                       | None => false
                       end) req
     && Contract.covers (OBJECT props []) (Types.TInterface ms))%bool.
Proof. reflexivity. Qed.

Lemma covers_object_cons
    (k : string) (sk : Schema) (props : list (string * Schema))
    (ms : list (string * (bool * Types.TsType))) :
  Contract.covers (OBJECT ((k, sk) :: props) []) (Types.TInterface ms)
  = (match Contract.interface_member k ms with
     | Some (_, tk) => Contract.covers sk tk
     | None => false
     end
     && Contract.covers (OBJECT props []) (Types.TInterface ms))%bool.
Proof. reflexivity. Qed.

(** A well-formed object treats each declared member as its type says. *)
Lemma well_formed_member
    (ms : list (string * (bool * Types.TsType))) (fields : list (string * JsonValue))
    (k : string) (opt : bool) (tk : Types.TsType) :
  Types.well_formed (Types.TInterface ms) (JObject fields) = true ->
  Contract.interface_member k ms = Some (opt, tk) ->
  match lookup k fields with
  | Some vk => Types.well_formed tk vk = true
  | None => opt = true
  end.
Proof.
  induction ms as [ | [k' [opt' tk']] ms IH ]; intros Hwf Hmem.
  - discriminate Hmem.
  - rewrite well_formed_interface_cons in Hwf.
    apply andb_prop in Hwf; destruct Hwf as [Hhead Htail].
    cbn [Contract.interface_member] in Hmem.
    destruct (String.eqb_spec k k') as [-> | Hneq].
    + injection Hmem as <- <-.
      destruct (lookup k' fields); exact Hhead.
    + exact (IH Htail Hmem).
Qed.

(** Whenever the schema covers the type, the values of the type conform
    to the schema. *)
Lemma covers_sound (s : Schema) :
  forall (t : Types.TsType) (v : JsonValue),
    Contract.covers s t = true -> Types.well_formed t v = true -> conforms s v = true.
Proof.
  induction s as [ | | it IH | props req IH ] using Contract.Schema_nested_ind;
    intros t v Hcov Hwf.
  - destruct t; try discriminate Hcov; destruct v; try discriminate Hwf; reflexivity.
  - destruct t; try discriminate Hcov; destruct v; try discriminate Hwf; reflexivity.
  - destruct t as [ | | | e | ]; try discriminate Hcov.
    destruct v as [ | | | | vs | ]; try discriminate Hwf.
    cbn in Hcov, Hwf |- *.
    rewrite forallb_forall in Hwf |- *.
    intros x Hx; exact (IH e x Hcov (Hwf x Hx)).
  - destruct t as [ | | | | ms ]; try discriminate Hcov.
    destruct v as [ | | | | | fields ]; try discriminate Hwf.
    rewrite covers_object_split in Hcov.
    apply andb_prop in Hcov; destruct Hcov as [Hreq Hprops].
    rewrite conforms_object_split; apply andb_true_intro; split.
    + rewrite forallb_forall in Hreq |- *.
      intros k Hk; specialize (Hreq k Hk).
      destruct (Contract.interface_member k ms) as [[opt tk] | ] eqn:Hmem;
        [ | discriminate Hreq ].
      pose proof (well_formed_member ms fields k opt tk Hwf Hmem) as Hk'.
      destruct (lookup k fields); [ reflexivity | ].
      rewrite Hk' in Hreq; discriminate Hreq.
    + clear Hreq.
      induction IH as [ | [k sk] props Hsk _ IHprops ]; [ reflexivity | ].
      rewrite covers_object_cons in Hprops.
      apply andb_prop in Hprops; destruct Hprops as [Hk Hrest].
      rewrite conforms_object_cons; apply andb_true_intro; split.
      * destruct (Contract.interface_member k ms) as [[opt tk] | ] eqn:Hmem;
          [ | discriminate Hk ].
        pose proof (well_formed_member ms fields k opt tk Hwf Hmem) as Hk'.
        destruct (lookup k fields) as [vk | ]; [ | reflexivity ].
        exact (Hsk tk vk Hk Hk').
      * exact (IHprops Hrest).
Qed.

(** X21. The response schema asks nothing that [AnalysisResult] does not
    guarantee: every well-formed [AnalysisResult] conforms to it. *)
Theorem well_formed_result_conforms (v : JsonValue) :
  Types.well_formed Types.AnalysisResult v = true ->
  conforms responseSchema v = true.
Proof.
  apply covers_sound; reflexivity.
Qed.

End SchemaCoversType.

(** ** The client when things go wrong *)

Section ClientEdges.
Context {S : Type} `{JsonHost}.

(** X1. When the remote call is rejected, [analyzeSample] throws the very
    error of the rejection; nothing is parsed, component state is
    untouched, and the one call has been made. *)
Theorem analyzeSample_rethrows_rejection
    (o : Oracle) (env : Env) (images : list string) (st : S) (log : list Call) (e : JsError) :
  o log (the_call env images) = inr e ->
  run o (analyzeSample env images) st log
  = mkRun (Thrown e) st (log ++ [the_call env images]).
Proof.
  intros Hreply; rewrite run_analyzeSample, Hreply; reflexivity.
Qed.

(** X3. With [GEMINI_API_KEY] unset or empty the client does not fail early:
    the request goes out all the same, under the empty API key. *)
Theorem analyzeSample_sends_empty_key
    (o : Oracle) (env : Env) (images : list string) (st : S) (log : list Call) :
  GEMINI_API_KEY env = None \/ GEMINI_API_KEY env = Some "" ->
  calls (run o (analyzeSample env images) st log)
  = log ++ [mkCall "" (generateContentRequest images)].
Proof.
  intros Hkey; rewrite run_analyzeSample; cbn [calls]; unfold the_call.
  destruct Hkey as [-> | ->]; reflexivity.
Qed.

(** X4. [analyzeSample] itself does not ask for images: with the empty list
    it still makes its one call, whose only part is the text prompt. *)
Theorem analyzeSample_without_images_still_calls
    (o : Oracle) (env : Env) (st : S) (log : list Call) :
  exists c : Call,
    calls (run o (analyzeSample env []) st log) = log ++ [c]
    /\ parts (request c) = [text prompt]
    /\ outcome (run o (analyzeSample env []) st log) = settle (o log c).
Proof.
  exists (the_call env []); rewrite run_analyzeSample; repeat split.
Qed.

End ClientEdges.

(** ** [handleAnalyze] from start to finish *)

Section AnalyzeOutcomes.
Context `{JsonHost} `{FileHost}.

(** X5. A successful analysis stores the parsed report, clears the error and
    ends the analysing phase; the images are as they were. *)
Theorem handleAnalyze_success
    (o : Oracle) (env : Env) (rendered current : AppState) (log : list Call)
    (resp : Response) (data : JsonValue) :
  images rendered <> [] ->
  o log (the_call env (images rendered)) = inl resp ->
  JSON_parse (or_default (response_text resp) "{}") = inl data ->
  run o (handleAnalyze env rendered) current log
  = mkRun (Returned tt)
          (mkApp (images current) false (Some data) None (loadingMessage current))
          (log ++ [the_call env (images rendered)]).
Proof.
  intros Hne Hreply Hparse.
  rewrite (run_handleAnalyze o env rendered current log Hne), Hreply.
  cbn [settle]; rewrite Hparse; reflexivity.
Qed.

(** X6. A failed analysis, whether the call was rejected or the reply's text
    was not JSON, shows the error's message, or the stock message when
    the error has none or an empty one. The report of an earlier analysis
    stays in place, and the analysing phase ends. *)
Theorem handleAnalyze_failure
    (o : Oracle) (env : Env) (rendered current : AppState) (log : list Call) (err : JsError) :
  images rendered <> [] ->
  o log (the_call env (images rendered)) = inr err
  \/ (exists resp, o log (the_call env (images rendered)) = inl resp
                   /\ JSON_parse (or_default (response_text resp) "{}") = inr err) ->
  run o (handleAnalyze env rendered) current log
  = mkRun (Returned tt)
          (mkApp (images current) false (result current)
                 (Some (or_default (message err) "An error occurred during analysis."))
                 (loadingMessage current))
          (log ++ [the_call env (images rendered)]).
Proof.
  intros Hne Hfail.
  rewrite (run_handleAnalyze o env rendered current log Hne).
  destruct Hfail as [Hreply | [resp [Hreply Hparse]]]; rewrite Hreply; cbn [settle].
  - reflexivity.
  - rewrite Hparse; reflexivity.
Qed.

(** X7. Whatever the remote model does, [handleAnalyze] completes normally
    (every error is caught), makes at most one call, and leaves the
    images and the loading message alone; unless it stopped at the
    missing-images check, analysis is no longer in progress when it
    ends. *)
Theorem handleAnalyze_always_settles
    (o : Oracle) (env : Env) (rendered current : AppState) (log : list Call) :
  let after := run o (handleAnalyze env rendered) current log in
  outcome after = Returned tt
  /\ (calls after = log \/ calls after = log ++ [the_call env (images rendered)])
  /\ images (final after) = images current
  /\ loadingMessage (final after) = loadingMessage current
  /\ (images rendered <> [] -> isAnalyzing (final after) = false).
Proof.
  intros after; subst after.
  destruct (images rendered) as [ | img imgs ] eqn:Himgs.
  - unfold handleAnalyze; rewrite Himgs; cbn.
    repeat split; [ left; reflexivity | intros Hne; contradiction ].
  - assert (Hne : images rendered <> []) by (rewrite Himgs; discriminate).
    rewrite (run_handleAnalyze o env rendered current log Hne), Himgs.
    unfold analyzed.
    destruct (settle _); cbn; repeat split; right; reflexivity.
Qed.

End AnalyzeOutcomes.

(** ** Events handled while the analysis is pending *)

Section WhilePending.
Context `{JsonHost} `{FileHost}.

(** [handleAnalyze] around handlers that run during its call: the
    handlers see the state as [handleAnalyze] left it before the call,
    and the completion is applied on top of what they did. *)
Lemma run_interleaved_handleAnalyze
    (o : Oracle) (env : Env) (rendered current : AppState) (meanwhile : Prog AppState unit)
    (log : list Call) :
  images rendered <> [] ->
  let c := the_call env (images rendered) in
  let mid := run o meanwhile (setError None (setIsAnalyzing true current)) (log ++ [c]) in
  run_interleaved o (handleAnalyze env rendered) meanwhile current log
  = mkRun (Returned tt)
          (setIsAnalyzing false
             match settle (o log c) with
             | Returned data => setResult (Some data) (final mid)
             | Thrown err =>
                 setError (Some (or_default (message err) analysis_failed)) (final mid)
             end)
          (calls mid).
Proof.
  intros Hne c mid; subst c mid; unfold handleAnalyze, analysis_failed.
  destruct (images rendered) as [ | img imgs ] eqn:Himgs; [ contradiction | ].
  cbn -[the_call generateContentRequest]; unfold the_call, settle, parse.
  destruct (o log _) as [resp | e]; cbn; [ | reflexivity ].
  destruct (JSON_parse _); reflexivity.
Qed.


(** X9. Images whose upload completes while the analysis is pending join the
    list and stay there, but they are not part of the analysis: the call
    carries the images of the render that started it. *)
Theorem upload_while_pending_is_not_analyzed
    (o : Oracle) (env : Env) (rendered current : AppState) (files : list File)
    (log : list Call) :
  images rendered <> [] ->
  let after :=
    run_interleaved o (handleAnalyze env rendered) (fire (map onloadend files)) current log in
  calls after = log ++ [the_call env (images rendered)]
  /\ parts (request (the_call env (images rendered)))
     = imageParts (images rendered) ++ [text prompt]
  /\ images (final after) = images current ++ map readAsDataURL files
  /\ isAnalyzing (final after) = false.
Proof.
  intros Hne after; subst after.
  rewrite (run_interleaved_handleAnalyze o env rendered current _ log Hne).
  cbv zeta; rewrite run_fire_onloadend; cbn [calls final].
  destruct (settle _); repeat split.
Qed.

End WhilePending.

(** ** Removing images and resetting *)

Section ImageList.
Context `{JsonHost} `{FileHost}.

(** Past the index filtered out, nothing more is dropped. *)
Lemma filter_index_above {A : Type} (l : list A) (index i : nat) :
  index < i ->
  filter_index (fun _ j => negb (Nat.eqb j index)) i l = l.
Proof.
  revert i; induction l as [ | x rest IH ]; intros i Hlt; cbn [filter_index].
  - reflexivity.
  - destruct (Nat.eqb_spec i index) as [Heq | _]; [ lia | ].
    cbn [negb]; f_equal; apply IH; lia.
Qed.

(** Filtering out one index cuts the list at that index. *)
Lemma filter_index_cut {A : Type} (index : nat) (l : list A) (i : nat) :
  filter_index (fun _ j => negb (Nat.eqb j (i + index))) i l
  = firstn index l ++ skipn (Datatypes.S index) l.
Proof.
  revert index i; induction l as [ | x rest IH ]; intros index i; cbn [filter_index].
  - destruct index; reflexivity.
  - destruct index as [ | index' ].
    + rewrite Nat.add_0_r, Nat.eqb_refl; cbn [negb firstn skipn app].
      apply filter_index_above; lia.
    + destruct (Nat.eqb_spec i (i + Datatypes.S index')) as [Habs | _]; [ lia | ].
      cbn [negb firstn skipn app]; f_equal.
      replace (i + Datatypes.S index') with (Datatypes.S i + index') by lia.
      apply IH.
Qed.

Lemma filter_index_cut_from_start {A : Type} (index : nat) (l : list A) :
  filter_index (fun _ j => negb (Nat.eqb j index)) 0 l
  = firstn index l ++ skipn (Datatypes.S index) l.
Proof. exact (filter_index_cut index l 0). Qed.

(** X10. Removing the image at a position inside the list takes out exactly
    that image: the ones before and after keep their order, the list is
    one shorter, and nothing else in the state changes. *)
Theorem removeImage_in_range
    (o : Oracle) (index : nat) (st : AppState) (log : list Call) :
  index < length (images st) ->
  let after := run o (removeImage index) st log in
  images (final after) = firstn index (images st) ++ skipn (Datatypes.S index) (images st)
  /\ Datatypes.S (length (images (final after))) = length (images st)
  /\ isAnalyzing (final after) = isAnalyzing st
  /\ result (final after) = result st
  /\ error (final after) = error st
  /\ loadingMessage (final after) = loadingMessage st
  /\ outcome after = Returned tt
  /\ calls after = log.
Proof.
  intros Hlt after; subst after; cbn.
  rewrite (filter_index_cut_from_start index (images st)).
  repeat split.
  rewrite length_app, length_firstn, length_skipn; lia.
Qed.

(** X11. Removing at a position past the end changes nothing. *)
Theorem removeImage_out_of_range
    (o : Oracle) (index : nat) (st : AppState) (log : list Call) :
  length (images st) <= index ->
  run o (removeImage index) st log = mkRun (Returned tt) st log.
Proof.
  intros Hle; cbn; unfold setImages.
  rewrite (filter_index_cut_from_start index (images st)).
  rewrite firstn_all2 by exact Hle.
  rewrite skipn_all2 by lia.
  rewrite app_nil_r; destruct st; reflexivity.
Qed.

(** X12. Uploading one file and then removing the last position gives back
    the images there were before. *)
Theorem upload_then_remove_restores
    (o : Oracle) (file : File) (st : AppState) (log : list Call) :
  let uploaded := final (run o (fire (handleImageUpload (Some [file]))) st log) in
  final (run o (removeImage (length (images st))) uploaded log) = st.
Proof.
  cbn; unfold setImages; cbn.
  rewrite (filter_index_cut_from_start (length (images st)) (images st ++ [readAsDataURL file])).
  rewrite firstn_app, Nat.sub_diag, firstn_all; cbn [firstn].
  rewrite skipn_all2 by (rewrite length_app; cbn; lia).
  rewrite !app_nil_r; destruct st; reflexivity.
Qed.

(** X13. Reset empties the images and clears report and error, but does not
    end an analysis in progress. After it the Run Analysis button is
    disabled, and [handleAnalyze] would only ask for an upload, without
    calling the remote model. *)
Theorem reset_then_analyze_asks_for_upload
    (o : Oracle) (env : Env) (st : AppState) (log : list Call) :
  let cleared := final (run o reset st log) in
  cleared = mkApp [] (isAnalyzing st) None None (loadingMessage st)
  /\ run_disabled cleared = true
  /\ run o (handleAnalyze env cleared) cleared log
     = mkRun (Returned tt)
             (setError (Some "Please upload at least one microscope image.") cleared)
             log.
Proof.
  cbn; unfold run_disabled; cbn.
  rewrite orb_true_r; repeat split.
Qed.

(** X14. Reset does not stop the readers of an upload: a file whose read
    completes after the reset is appended to the emptied list. *)
Theorem reader_finishing_after_reset_survives
    (o : Oracle) (before after : list File) (st : AppState) (log : list Call) :
  let s1 := final (run o (fire (map onloadend before)) st log) in
  let s2 := final (run o reset s1 log) in
  let s3 := final (run o (fire (map onloadend after)) s2 log) in
  images s3 = map readAsDataURL after.
Proof.
  cbv zeta; rewrite !run_fire_onloadend; reflexivity.
Qed.

(** X15. An upload with nothing selected (no file list, or an empty one)
    leaves no reader behind and changes nothing. *)
Theorem empty_selection_changes_nothing
    (o : Oracle) (target_files : option (list File)) (order : list (Prog AppState unit))
    (st : AppState) (log : list Call) :
  target_files = None \/ target_files = Some [] ->
  completion_of (handleImageUpload target_files) order ->
  run o (fire order) st log = mkRun (Returned tt) st log.
Proof.
  intros Hnone Hdone.
  assert (Horder : order = []).
  { unfold completion_of in Hdone.
    destruct Hnone as [-> | ->]; cbn in Hdone; apply Permutation_nil; exact Hdone. }
  rewrite Horder; reflexivity.
Qed.

End ImageList.

(** ** The loading message *)

Lemma run_interval_ticks (o : Oracle) (i n : nat) (st : AppState) (log : list Call) :
  run o (interval_ticks i (Datatypes.S n)) st log
  = mkRun (Returned tt)
          (setLoadingMessage (nth ((i + n) mod length loadingMessages) loadingMessages "") st)
          log.
Proof.
  revert i st; induction n as [ | n IH ]; intros i st.
  - rewrite Nat.add_0_r; reflexivity.
  - change (run o (interval_ticks i (Datatypes.S (Datatypes.S n))) st log)
      with (run o (interval_ticks (Datatypes.S i) (Datatypes.S n))
                (setLoadingMessage (nth (i mod length loadingMessages) loadingMessages "") st)
                log).
    rewrite IH.
    replace (Datatypes.S i + n) with (i + Datatypes.S n) by lia.
    reflexivity.
Qed.

(** X16. While an analysis runs, the message shown after the interval has
    fired n+1 times is entry n mod 6 of the six loading messages, so the
    messages repeat every six firings; the initial message
    [Initializing scan...] is not among them and is never shown again
    once the interval has fired. Nothing but the message changes. When no
    analysis runs there is no interval and the message stays. *)
Theorem loading_message_cycles (o : Oracle) (n m : nat) (st : AppState) (log : list Call) :
  let after := final (run o (useEffect_interval true (Datatypes.S n)) st log) in
  loadingMessage after = nth (n mod 6) loadingMessages ""
  /\ In (loadingMessage after) loadingMessages
  /\ loadingMessage after <> loadingMessage initial
  /\ loadingMessage (final (run o (useEffect_interval true (Datatypes.S (n + 6))) st log))
     = loadingMessage after
  /\ images after = images st
  /\ isAnalyzing after = isAnalyzing st
  /\ result after = result st
  /\ error after = error st
  /\ final (run o (useEffect_interval false m) st log) = st.
Proof.
  intros after; subst after; unfold useEffect_interval.
  rewrite !run_interval_ticks; cbn [final loadingMessage setLoadingMessage Nat.add].
  change (length loadingMessages) with 6.
  assert (Hin : In (nth (n mod 6) loadingMessages "") loadingMessages).
  { apply nth_In; change (length loadingMessages) with 6.
    apply Nat.mod_upper_bound; discriminate. }
  repeat split.
  - exact Hin.
  - intros Heq; rewrite Heq in Hin.
    cbn in Hin; repeat (destruct Hin as [Hin | Hin]; [ discriminate Hin | ]).
    exact Hin.
  - replace (n + 6) with (n + 1 * 6) by lia.
    rewrite Nat.Div0.mod_add; reflexivity.
Qed.

(** ** The severity bars *)

Lemma Qle_bool_whole (a b : nat) :
  Qle_bool (inject_Z (Z.of_nat a)) (inject_Z (Z.of_nat b)) = (a <=? b).
Proof.
  unfold Qle_bool, inject_Z; cbn [Qnum Qden].
  rewrite !Z.mul_1_r.
  destruct (Nat.leb_spec a b); [ apply Z.leb_le | apply Z.leb_gt ]; lia.
Qed.

(** Once a bar is dark, every later bar is dark. *)
Lemma dark_from (score : Q) (a n : nat) :
  Qle_bool score (inject_Z (Z.of_nat a)) = true ->
  map (fun i => negb (Qle_bool score (inject_Z (Z.of_nat i)))) (seq a n) = repeat false n.
Proof.
  revert a; induction n as [ | n IH ]; intros a Ha; cbn [seq map repeat].
  - reflexivity.
  - rewrite Ha; cbn [negb]; f_equal.
    apply IH.
    apply Qle_bool_iff; apply Qle_bool_iff in Ha.
    apply (Qle_trans _ _ _ Ha).
    rewrite <- Zle_Qle; lia.
Qed.

Lemma lit_then_dark (score : Q) (a n : nat) :
  exists k, k <= n
            /\ map (fun i => negb (Qle_bool score (inject_Z (Z.of_nat i)))) (seq a n)
               = repeat true k ++ repeat false (n - k).
Proof.
  revert a; induction n as [ | n IH ]; intros a.
  - exists 0; split; [ lia | reflexivity ].
  - cbn [seq map].
    destruct (Qle_bool score (inject_Z (Z.of_nat a))) eqn:Ha; cbn [negb].
    + exists 0; split; [ lia | ].
      cbn [repeat app Nat.sub]; f_equal.
      apply dark_from.
      apply Qle_bool_iff; apply Qle_bool_iff in Ha.
      apply (Qle_trans _ _ _ Ha).
      rewrite <- Zle_Qle; lia.
    + destruct (IH (Datatypes.S a)) as [k [Hk Hbars]].
      exists (Datatypes.S k); split; [ lia | ].
      rewrite Hbars; reflexivity.
Qed.

(** X17. Whatever score the report carries (fractional, negative, above ten),
    there are ten bars and the lit ones come first: some k of at most ten
    lit bars followed by dark ones. *)
Theorem severity_bars_lit_first (score : Q) :
  exists k, k <= 10
            /\ severity_bars score = repeat true k ++ repeat false (10 - k).
Proof. exact (lit_then_dark score 0 10). Qed.

(** X18. For a whole score s the number of lit bars is s, capped at ten. *)
Theorem severity_bars_of_whole_score (s : nat) :
  severity_bars (inject_Z (Z.of_nat s))
  = repeat true (Nat.min s 10) ++ repeat false (10 - Nat.min s 10).
Proof.
  unfold severity_bars; cbn [seq map].
  rewrite !Qle_bool_whole.
  do 10 (destruct s as [ | s ]; [ reflexivity | ]).
  rewrite Nat.min_r by lia; reflexivity.
Qed.

(** ** What a conforming reply guarantees *)

Section ConformingReply.

(** A conforming object has every required property. *)
Lemma conforms_required_present
    (props : list (string * Schema)) (req : list string)
    (fields : list (string * JsonValue)) (k : string) :
  conforms (OBJECT props req) (JObject fields) = true ->
  In k req ->
  exists v, lookup k fields = Some v.
Proof.
  intros Hconf Hk.
  rewrite conforms_object_split in Hconf.
  apply andb_prop in Hconf; destruct Hconf as [Hreq _].
  rewrite forallb_forall in Hreq; specialize (Hreq k Hk).
  destruct (lookup k fields) as [v | ]; [ exists v; reflexivity | discriminate Hreq ].
Qed.

(** A property that is present conforms to its own schema. *)
Lemma conforms_property
    (props : list (string * Schema)) (req : list string)
    (fields : list (string * JsonValue)) (k : string) (sk : Schema) (v : JsonValue) :
  conforms (OBJECT props req) (JObject fields) = true ->
  schema_lookup k props = Some sk ->
  lookup k fields = Some v ->
  conforms sk v = true.
Proof.
  intros Hconf Hsk Hv.
  rewrite conforms_object_split in Hconf.
  apply andb_prop in Hconf; destruct Hconf as [_ Hprops].
  induction props as [ | [k' sk'] props IH ]; [ discriminate Hsk | ].
  rewrite conforms_object_cons in Hprops.
  apply andb_prop in Hprops; destruct Hprops as [Hhead Htail].
  cbn [schema_lookup] in Hsk.
  destruct (String.eqb_spec k k') as [-> | Hneq].
  - injection Hsk as <-; rewrite Hv in Hhead; exact Hhead.
  - exact (IH Htail Hsk).
Qed.

Lemma conforms_required_string
    (props : list (string * Schema)) (req : list string)
    (fields : list (string * JsonValue)) (k : string) :
  conforms (OBJECT props req) (JObject fields) = true ->
  In k req ->
  schema_lookup k props = Some STRING ->
  exists s, lookup k fields = Some (JString s).
Proof.
  intros Hconf Hk Hsk.
  destruct (conforms_required_present props req fields k Hconf Hk) as [v Hv].
  pose proof (conforms_property props req fields k STRING v Hconf Hsk Hv) as Hstr.
  destruct v; try discriminate Hstr.
  eexists; exact Hv.
Qed.

(** X22. A reply that conforms to the response schema is an object that lacks
    none of the nine members [AnalysisResult] declares at its top
    level. *)
Theorem conforming_reply_has_every_top_level_member (v : JsonValue) :
  conforms responseSchema v = true ->
  exists fields, v = JObject fields /\ Types.missing Types.AnalysisResult v = [].
Proof.
  intros Hconf.
  destruct v as [ | | | | | fields ]; try discriminate Hconf.
  exists fields; split; [ reflexivity | ].
  unfold responseSchema in Hconf.
  cbn [Types.missing Types.AnalysisResult Types.mandatory Types.member
       filter map fst snd negb].
  assert (Hpresent : forall k,
             In k [ "reportId"; "analysisDate"; "detection"; "classification"; "severity";
                    "sources"; "healthRisk"; "remediation"; "fullReportMarkdown" ] ->
             exists x, lookup k fields = Some x).
  { intros k Hk; exact (conforms_required_present _ _ fields k Hconf Hk). }
  repeat match goal with
         | |- context [ lookup ?k fields ] =>
             let x := fresh "x" in
             let Hx := fresh "Hx" in
             destruct (Hpresent k) as [x Hx]; [ cbn; tauto | rewrite Hx ]
         end.
  reflexivity.
Qed.

Context `{NumberHost}.

(** X23. With a report that conforms to the response schema on display,
    [downloadReport] offers the report's markdown, as text/markdown,
    under the name MicroScan_Report_<reportId>.md. *)
Theorem download_of_conforming_report (st : AppState) (r : JsonValue) :
  result st = Some r ->
  conforms responseSchema r = true ->
  exists id markdown : string,
    own_property r "reportId" = Some (JString id)
    /\ own_property r "fullReportMarkdown" = Some (JString markdown)
    /\ downloadReport st
       = Offers (mkDownload markdown "text/markdown" ("MicroScan_Report_" ++ id ++ ".md")).
Proof.
  intros Hres Hconf.
  destruct r as [ | | | | | fields ]; try discriminate Hconf.
  unfold responseSchema in Hconf.
  destruct (conforms_required_string _ _ fields "reportId" Hconf) as [id Hid];
    [ cbn; tauto | reflexivity | ].
  destruct (conforms_required_string _ _ fields "fullReportMarkdown" Hconf) as [md Hmd];
    [ cbn; tauto | reflexivity | ].
  exists id, md.
  unfold downloadReport; rewrite Hres; cbn [truthy own_property].
  rewrite Hid, Hmd; repeat split.
Qed.

End ConformingReply.

(** ** The further properties at work on concrete runs *)

Lemma analyzeSample_rethrows_rejection_witness :
  Hosts.rejects (Some "quota exceeded") [] (the_call Hosts.env [Hosts.png])
  = inr (mkError (Some "quota exceeded"))
  /\ run (Hosts.rejects (Some "quota exceeded"))
         (analyzeSample (H := Hosts.flat_json) Hosts.env [Hosts.png]) tt []
     = mkRun (Thrown (mkError (Some "quota exceeded"))) tt
             ([] ++ [the_call Hosts.env [Hosts.png]]).
Proof.
  split; [ reflexivity | ].
  apply (@analyzeSample_rethrows_rejection
           unit Hosts.flat_json (Hosts.rejects (Some "quota exceeded")) Hosts.env
           [Hosts.png] tt [] (mkError (Some "quota exceeded"))).
  reflexivity.
Defined.

Lemma analyzeSample_throws_syntax_error_witness :
  Hosts.answers (Some "oops") [] (the_call Hosts.env [Hosts.png])
  = inl (mkResponse (Some "oops"))
  /\ "oops" <> ""
  /\ JSON_parse (JsonHost := Hosts.flat_json) "oops"
     = inr (mkError (Some "Unexpected token in JSON"))
  /\ outcome (run (Hosts.answers (Some "oops"))
                  (analyzeSample (H := Hosts.flat_json) Hosts.env [Hosts.png]) tt [])
     = Thrown (mkError (Some "Unexpected token in JSON")).
Proof.
  split; [ reflexivity | split; [ discriminate | split; [ reflexivity | ] ] ].
  apply (@analyzeSample_throws_syntax_error
           unit Hosts.flat_json (Hosts.answers (Some "oops")) Hosts.env [Hosts.png] tt []
           (mkResponse (Some "oops")) "oops" (mkError (Some "Unexpected token in JSON")));
    [ reflexivity | reflexivity | discriminate | reflexivity ].
Defined.

Lemma analyzeSample_sends_empty_key_witness :
  (GEMINI_API_KEY (mkEnv None) = None \/ GEMINI_API_KEY (mkEnv None) = Some "")
  /\ calls (run (Hosts.answers (Some "{}"))
                (analyzeSample (H := Hosts.flat_json) (mkEnv None) [Hosts.png]) tt [])
     = [] ++ [mkCall "" (generateContentRequest [Hosts.png])].
Proof.
  split; [ left; reflexivity | ].
  apply (@analyzeSample_sends_empty_key
           unit Hosts.flat_json (Hosts.answers (Some "{}")) (mkEnv None) [Hosts.png] tt []).
  left; reflexivity.
Defined.

Lemma handleAnalyze_success_witness :
  images Samples.one_image <> []
  /\ run (Hosts.answers (Some "{}"))
         (handleAnalyze (H := Hosts.flat_json) Hosts.env Samples.one_image)
         Samples.one_image []
     = mkRun (Returned tt)
             (mkApp [Hosts.png] false (Some (JObject [])) None "Initializing scan...")
             ([] ++ [the_call Hosts.env [Hosts.png]]).
Proof.
  split; [ discriminate | ].
  apply (@handleAnalyze_success
           Hosts.flat_json (Hosts.answers (Some "{}")) Hosts.env
           Samples.one_image Samples.one_image [] (mkResponse (Some "{}")) (JObject []));
    [ discriminate | reflexivity | reflexivity ].
Defined.

Lemma handleAnalyze_failure_witness :
  images Samples.reported <> []
  /\ run (Hosts.rejects None)
         (handleAnalyze (H := Hosts.flat_json) Hosts.env Samples.reported)
         Samples.reported []
     = mkRun (Returned tt)
             (mkApp [Hosts.png] false (Some Samples.complete_report)
                    (Some "An error occurred during analysis.") "Initializing scan...")
             ([] ++ [the_call Hosts.env [Hosts.png]]).
Proof.
  split; [ discriminate | ].
  apply (@handleAnalyze_failure
           Hosts.flat_json (Hosts.rejects None) Hosts.env
           Samples.reported Samples.reported [] (mkError None));
    [ discriminate | left; reflexivity ].
Defined.


Lemma upload_while_pending_is_not_analyzed_witness :
  images Samples.one_image <> []
  /\ images (final (run_interleaved
                      (Hosts.answers (Some "{}"))
                      (handleAnalyze (H := Hosts.flat_json) Hosts.env Samples.one_image)
                      (fire (map (onloadend (H0 := Hosts.encoded_files)) Hosts.selected))
                      Samples.one_image []))
     = images Samples.one_image
       ++ map (readAsDataURL (FileHost := Hosts.encoded_files)) Hosts.selected.
Proof.
  split; [ discriminate | ].
  pose proof (@upload_while_pending_is_not_analyzed
                Hosts.flat_json Hosts.encoded_files (Hosts.answers (Some "{}")) Hosts.env
                Samples.one_image Samples.one_image Hosts.selected []) as Hrun.
  cbv zeta in Hrun.
  apply Hrun; discriminate.
Defined.

Lemma removeImage_in_range_witness :
  1 < length (images Hosts.four_images)
  /\ images (final (run (Hosts.answers None) (removeImage 1) Hosts.four_images []))
     = [Hosts.png; Hosts.png; Hosts.jpeg]
  /\ loadingMessage (final (run (Hosts.answers None) (removeImage 1) Hosts.four_images []))
     = loadingMessage Hosts.four_images.
Proof.
  split; [ cbn; lia | ].
  pose proof (removeImage_in_range (Hosts.answers None) 1 Hosts.four_images []) as Hrun.
  cbv zeta in Hrun.
  assert (Hlt : 1 < length (images Hosts.four_images)) by (cbn; lia).
  destruct (Hrun Hlt) as [Himages [_ [_ [_ [_ [Hmessage _]]]]]].
  split; [ exact Himages | exact Hmessage ].
Defined.

Lemma removeImage_out_of_range_witness :
  length (images Hosts.four_images) <= 4
  /\ run (Hosts.answers None) (removeImage 4) Hosts.four_images []
     = mkRun (Returned tt) Hosts.four_images [].
Proof.
  split; [ cbn; lia | ].
  apply (removeImage_out_of_range (Hosts.answers None) 4 Hosts.four_images []).
  cbn; lia.
Defined.

Lemma empty_selection_changes_nothing_witness :
  (@None (list (@File Hosts.encoded_files)) = None
   \/ @None (list (@File Hosts.encoded_files)) = Some [])
  /\ completion_of (handleImageUpload (H0 := Hosts.encoded_files) None) []
  /\ run (Hosts.answers None) (fire []) Hosts.four_images []
     = mkRun (Returned tt) Hosts.four_images [].
Proof.
  assert (Hdone : completion_of (handleImageUpload (H0 := Hosts.encoded_files) None) []).
  { apply Permutation_refl. }
  split; [ left; reflexivity | split; [ exact Hdone | ] ].
  apply (@empty_selection_changes_nothing
           Hosts.encoded_files (Hosts.answers None) None [] Hosts.four_images []
           (or_introl eq_refl) Hdone).
Defined.

Lemma well_formed_result_conforms_witness :
  Types.well_formed Types.AnalysisResult Samples.complete_report = true
  /\ conforms responseSchema Samples.complete_report = true.
Proof.
  split; [ reflexivity | ].
  apply (well_formed_result_conforms Samples.complete_report); reflexivity.
Defined.

Lemma conforming_reply_has_every_top_level_member_witness :
  conforms responseSchema Hosts.hollow_report = true
  /\ exists fields,
       Hosts.hollow_report = JObject fields
       /\ Types.missing Types.AnalysisResult Hosts.hollow_report = [].
Proof.
  split; [ reflexivity | ].
  apply (conforming_reply_has_every_top_level_member Hosts.hollow_report); reflexivity.
Defined.

Lemma download_of_conforming_report_witness :
  result Samples.reported = Some Samples.complete_report
  /\ conforms responseSchema Samples.complete_report = true
  /\ downloadReport (H := Samples.whole_numbers) Samples.reported
     = Offers (mkDownload "# Report" "text/markdown" "MicroScan_Report_MS-0042.md").
Proof.
  split; [ reflexivity | split; [ reflexivity | ] ].
  destruct (@download_of_conforming_report
              Samples.whole_numbers Samples.reported Samples.complete_report
              eq_refl eq_refl)
    as [id [markdown [Hid [Hmd Hdownload]]]].
  injection Hid as <-; injection Hmd as <-.
  exact Hdownload.
Defined.

Lemma imagePart_single_comma_witness :
  Reading.after_first "," Hosts.png = Some "iVBORw0KGgo="
  /\ occurs "," "iVBORw0KGgo=" = false
  /\ imagePart Hosts.png = Reading.stated_imagePart Hosts.png.
Proof.
  split; [ reflexivity | split; [ reflexivity | ] ].
  apply (imagePart_single_comma Hosts.png "iVBORw0KGgo="); reflexivity.
Defined.

Lemma imagePart_no_comma_witness :
  occurs "," "iVBORw0KGgo=" = false
  /\ imagePart "iVBORw0KGgo=" = inlineData (mkInline "image/jpeg" None).
Proof.
  split; [ reflexivity | ].
  apply (imagePart_no_comma "iVBORw0KGgo="); reflexivity.
Defined.

Lemma whole_density_one_band_witness :
  42 <> 300
  /\ exists b, bands_of (inject_Z (Z.of_nat 42)) = [b].
Proof.
  split; [ discriminate | ].
  apply (whole_density_one_band 42); discriminate.
Defined.
